(** * DishDecode: the upload and analyze route handlers

    A shallow embedding of [src/app/api/analyze/route.ts] and
    [src/app/api/upload/route.ts].

    - [JS] holds the fragment of JavaScript the handlers rely on: values as
      [JSON.parse] produces them (plus [undefined]), truthiness, [typeof],
      [||], [??], property reads, [Math.min]/[Math.max] and the string
      methods used on the model reply and on the file name.
    - [Flow] is the control monad of a handler: a call log and the two
      stores threaded through, with [return NextResponse.json(..)] as an
      early exit.
    - [Analyze] and [Upload] are the two [POST] handlers; what reaches a
      handler from outside (configuration, the answers of the session
      guard, of the stores and of the model) is an [Env], what it changes
      is a [World].
    - [AnalyzeSpec] and [UploadSpec] name the notions the properties are
      stated with, [AnalyzeExamples] and [UploadExamples] hold concrete
      requests.
    - [Callback] is the GET handler of [app/auth/callback/route.ts];
      [Uploader] and [Dashboard] are the browser-side handlers that call
      the two routes.
    - [AnalyzeOutcomes] and [UploadOutcomes] list the ways a request can
      end.
    - [JSFacts], [Normalization], [Pipeline] and [UploadFacts] are the
      proofs about normalization, persistence and the object key;
      [AnalyzeCases], [ReplyText], [UploadCases], [CallbackFacts] and
      [ClientFacts] follow each route request by request and through its
      callers. *)

From Stdlib Require Import List String Ascii Bool Arith NArith ZArith QArith Lia.
From Stdlib Require Import DecimalString.
Import ListNotations.

Set Warnings "-register-all".

Local Close Scope Q_scope.
Local Open Scope string_scope.
Local Open Scope list_scope.

(* ================================================================== *)
(** * The JavaScript fragment *)
(* ================================================================== *)

Module JS.

(** A number as [JSON.parse] can return it: a finite value, or an infinity
    when the literal overflows ([JSON.parse("1e999")]).  Finite doubles are
    rationals, so a finite number is a [Q]; no operation of the handlers
    produces NaN from such numbers, and [JSON.parse] never returns it. *)
Inductive number : Type :=
| Fin (q : Q)
| PosInf
| NegInf.

Inductive value : Type :=
| VUndefined
| VNull
| VBool (b : bool)
| VNum (n : number)
| VStr (s : string)
| VArr (items : list value)
| VObj (props : list (string * value)).

(** An object is its list of own properties, in insertion order. *)
Definition obj : Type := list (string * value).

Inductive type_tag : Type :=
| TUndefined | TObject | TBoolean | TNumber | TString.

Definition typeof (v : value) : type_tag :=
  match v with
  | VUndefined => TUndefined
  | VNull | VArr _ | VObj _ => TObject
  | VBool _ => TBoolean
  | VNum _ => TNumber
  | VStr _ => TString
  end.

Definition type_tag_eqb (a b : type_tag) : bool :=
  match a, b with
  | TUndefined, TUndefined | TObject, TObject | TBoolean, TBoolean
  | TNumber, TNumber | TString, TString => true
  | _, _ => false
  end.

(** ** Numbers *)

Definition Qltb (x y : Q) : bool := negb (Qle_bool y x).

Definition num_ltb (a b : number) : bool :=
  match a, b with
  | Fin x, Fin y => Qltb x y
  | NegInf, NegInf => false
  | NegInf, _ => true
  | PosInf, _ => false
  | Fin _, PosInf => true
  | Fin _, NegInf => false
  end.

(** Numeric equality ([===] on numbers): representation-independent. *)
Definition num_eq (a b : number) : Prop :=
  match a, b with
  | Fin x, Fin y => Qeq x y
  | PosInf, PosInf | NegInf, NegInf => True
  | _, _ => False
  end.

(** [Math.min(a, b)] and [Math.max(a, b)] on two numbers. *)
Definition Math_min (a b : number) : number := if num_ltb b a then b else a.
Definition Math_max (a b : number) : number := if num_ltb a b then b else a.

Definition zero : number := Fin 0.
Definition one : number := Fin 1.

(** The number lies in the closed interval [0,1]. *)
Definition in_unit_interval (n : number) : Prop :=
  match n with
  | Fin q => (0 <= q /\ q <= 1)%Q
  | _ => False
  end.

(** ** Truthiness and the short-circuit operators *)

Definition string_is_empty (s : string) : bool :=
  match s with EmptyString => true | String _ _ => false end.

(** [ToBoolean]: false, 0, the empty string, null and undefined are falsy. *)
Definition truthy (v : value) : bool :=
  match v with
  | VUndefined | VNull => false
  | VBool b => b
  | VNum (Fin q) => negb (Qeq_bool q 0)
  | VNum _ => true
  | VStr s => negb (string_is_empty s)
  | VArr _ | VObj _ => true
  end.

(** [a || b] *)
Definition or_else (a b : value) : value := if truthy a then a else b.

Definition nullish (v : value) : bool :=
  match v with VUndefined | VNull => true | _ => false end.

(** [a ?? b] *)
Definition coalesce (a b : value) : value := if nullish a then b else a.

(** ** Property reads *)

Fixpoint lookup (o : obj) (k : string) : value :=
  match o with
  | [] => VUndefined
  | (k', v) :: rest => if String.eqb k k' then v else lookup rest k
  end.

(** [v.k] for a [v] that is neither null nor undefined, and [v?.k] for any
    [v].  Only data property names are read by the handlers (none of them
    is a property of a built-in prototype), so a read on a primitive or on
    an array is undefined. *)
Definition get (v : value) (k : string) : value :=
  match v with
  | VObj o => lookup o k
  | _ => VUndefined
  end.

Definition keys (o : obj) : list string := map fst o.

(** The property names [JSON.stringify] writes for an object: a property
    whose value is undefined is left out of the text. *)
Definition wire_keys (o : obj) : list string :=
  keys (filter (fun kv => negb (type_tag_eqb (typeof (snd kv)) TUndefined)) o).

(** ** Strings *)

(** A string is the sequence of the bytes of its UTF-8 encoding (U+00A0 is
    the two bytes 194 160, U+FEFF the three bytes 239 187 191).  The
    handlers search strings for ASCII text only, and a position found by
    [indexOf] or [lastIndexOf] is only ever handed to [substring], so a
    byte position selects the same text as the position in UTF-16 code
    units does. *)

Definition newline : ascii := "010"%char.

(** [s.startsWith(p)] *)
Definition startsWith (s p : string) : bool := String.prefix p s.

(** [s.endsWith(p)] *)
Definition endsWith (s p : string) : bool :=
  let n := String.length s in
  let m := String.length p in
  (m <=? n)%nat && String.eqb (String.substring (n - m) m s) p.

(** [s.indexOf(c)] for a one-character [c]: the first position, or -1. *)
Fixpoint indexOf (s : string) (c : ascii) : Z :=
  match s with
  | EmptyString => (-1)%Z
  | String a rest =>
      if Ascii.eqb a c then 0%Z
      else match indexOf rest c with
           | Zneg _ => (-1)%Z
           | i => (i + 1)%Z
           end
  end.

(** [s.lastIndexOf(c)] for a one-character [c]: the last position, or -1. *)
Fixpoint lastIndexOf (s : string) (c : ascii) : Z :=
  match s with
  | EmptyString => (-1)%Z
  | String a rest =>
      match lastIndexOf rest c with
      | Zneg _ => if Ascii.eqb a c then 0%Z else (-1)%Z
      | i => (i + 1)%Z
      end
  end.

(** [s.substring(a, b)]: both ends are clamped into [0, length] and swapped
    when they come in the wrong order. *)
Definition substring (s : string) (a b : Z) : string :=
  let len := Z.of_nat (String.length s) in
  let a' := Z.min (Z.max a 0) len in
  let b' := Z.min (Z.max b 0) len in
  let lo := Z.min a' b' in
  let hi := Z.max a' b' in
  String.substring (Z.to_nat lo) (Z.to_nat (hi - lo)) s.

(** White space of [trim] is the WhiteSpace and LineTerminator characters
    of the language: U+0009 to U+000D, U+0020, U+00A0, U+1680, U+2000 to
    U+200A, U+2028, U+2029, U+202F, U+205F, U+3000 and U+FEFF.  In UTF-8
    they take one, two or three bytes. *)

(** One byte: U+0009 to U+000D and U+0020. *)
Definition is_space (c : ascii) : bool :=
  let n := nat_of_ascii c in
  ((9 <=? n) && (n <=? 13))%nat || (n =? 32)%nat.

(** Two bytes: U+00A0 is C2 A0. *)
Definition is_space2 (c d : ascii) : bool :=
  ((nat_of_ascii c =? 194) && (nat_of_ascii d =? 160))%nat.

(** Three bytes: U+1680 is E1 9A 80; U+2000 to U+200A are E2 80 80 to
    E2 80 8A; U+2028, U+2029 and U+202F are E2 80 A8, E2 80 A9 and
    E2 80 AF; U+205F is E2 81 9F; U+3000 is E3 80 80; U+FEFF is EF BB BF. *)
Definition is_space3 (c d e : ascii) : bool :=
  let a := nat_of_ascii c in
  let b := nat_of_ascii d in
  let n := nat_of_ascii e in
  ((a =? 225) && (b =? 154) && (n =? 128)
   || (a =? 226) && (b =? 128)
      && ((128 <=? n) && (n <=? 138) || (n =? 168) || (n =? 169) || (n =? 175))
   || (a =? 226) && (b =? 129) && (n =? 159)
   || (a =? 227) && (b =? 128) && (n =? 128)
   || (a =? 239) && (b =? 187) && (n =? 191))%nat.

(** The text is exactly one white space character. *)
Definition is_space_char (w : string) : bool :=
  match w with
  | String c EmptyString => is_space c
  | String c (String d EmptyString) => is_space2 c d
  | String c (String d (String e EmptyString)) => is_space3 c d e
  | _ => false
  end.

Fixpoint trimStart (s : string) : string :=
  match s with
  | EmptyString => EmptyString
  | String c rest =>
      if is_space c then trimStart rest
      else
        match rest with
        | EmptyString => s
        | String d rest1 =>
            if is_space2 c d then trimStart rest1
            else
              match rest1 with
              | EmptyString => s
              | String e rest2 =>
                  if is_space3 c d e then trimStart rest2 else s
              end
        end
  end.

(** From the end: what is left of the rest, with [c] in front, is dropped
    when it is one white space character. *)
Fixpoint trimEnd (s : string) : string :=
  match s with
  | EmptyString => EmptyString
  | String c rest =>
      let t := trimEnd rest in
      if is_space_char (String c t) then EmptyString else String c t
  end.

(** [s.trim()] *)
Definition trim (s : string) : string := trimEnd (trimStart s).

(** [s.split(c)] for a one-character separator: never the empty array. *)
Fixpoint split (sep : ascii) (s : string) : list string :=
  match s with
  | EmptyString => [EmptyString]
  | String c rest =>
      if Ascii.eqb c sep then EmptyString :: split sep rest
      else match split sep rest with
           | [] => [String c EmptyString]
           | seg :: segs => String c seg :: segs
           end
  end.

(** [a.pop()]: the last element, undefined ([None]) on the empty array. *)
Fixpoint pop {A : Type} (a : list A) : option A :=
  match a with
  | [] => None
  | [x] => Some x
  | _ :: rest => pop rest
  end.

(** [`${x}`] of a string that may be undefined. *)
Definition template (x : option string) : string :=
  match x with
  | Some s => s
  | None => "undefined"
  end.

(** [`${n}`] of a non-negative integer. *)
Definition show_nat (n : nat) : string := NilEmpty.string_of_uint (Nat.to_uint n).

(** [a.includes(x)] on an array of strings. *)
Definition includes (a : list string) (x : string) : bool :=
  existsb (String.eqb x) a.

(** [a.join(", ")] *)
Definition join (sep : string) (a : list string) : string :=
  match a with
  | [] => EmptyString
  | x :: rest => fold_left (fun acc y => (acc ++ sep ++ y)%string) rest x
  end.

End JS.

(* ================================================================== *)
(** * The handler monad *)
(* ================================================================== *)

Module Flow.

Section WithWorld.

(** [W] is what a handler can change: the stores and the log of calls to
    collaborators.  [R] is the HTTP response. *)
Variables W R : Type.

(** A step either leaves the handler with a response ([Return]) or goes
    on with a value ([Next]). *)
Inductive step (A : Type) : Type :=
| Return (r : R)
| Next (a : A).

Definition M (A : Type) : Type := W -> step A * W.

Definition ret {A} (a : A) : M A := fun w => (Next A a, w).

Definition bind {A B} (m : M A) (k : A -> M B) : M B :=
  fun w =>
    match m w with
    | (Return _ r, w') => (Return B r, w')
    | (Next _ a, w') => k a w'
    end.

(** [return r;] *)
Definition respond {A} (r : R) : M A := fun w => (Return A r, w).

Definition modify (f : W -> W) : M unit := fun w => (Next unit tt, f w).

(** Runs a handler body whose last statement is a [return]. *)
Definition run (m : M R) (w : W) : R * W :=
  match m w with
  | (Return _ r, w') => (r, w')
  | (Next _ r, w') => (r, w')
  end.

End WithWorld.

Arguments Return {R A} r.
Arguments Next {R A} a.
Arguments ret {W R A} a _.
Arguments bind {W R A B} m k _.
Arguments respond {W R A} r _.
Arguments modify {W R} f _.
Arguments run {W R} m w.

End Flow.

Declare Scope flow_scope.
Delimit Scope flow_scope with flow.
Notation "x <- m ;; k" := (Flow.bind m (fun x => k))
  (at level 100, m at next level, right associativity) : flow_scope.
Notation "m ;;; k" := (Flow.bind m (fun _ => k))
  (at level 100, right associativity) : flow_scope.

(* ================================================================== *)
(** * What both routes share *)
(* ================================================================== *)

Module Route.

Import JS.

(** A thrown [Error]: the handlers read its [name] and its [message]. *)
Record Error : Type := mkError { name : string; message : string }.

(** [new Error(msg)] *)
Definition new_Error (msg : string) : Error := mkError "Error" msg.

(** [NextResponse.json(body, { status })] *)
Record Response : Type := mkResponse { status : nat; body : obj }.

(** The session of the identity provider; [session.user.id] is read. *)
Record Session : Type := mkSession { user_id : string }.

(** The result of [supabase.auth.getSession()]: [data.session] and [error]
    (its message). *)
Record SessionData : Type := mkSessionData {
  session : option Session;
  sessionError : option string
}.

(** [error.message || dflt] *)
Definition message_or (err : Error) (dflt : string) : string :=
  if string_is_empty (message err) then dflt else message err.

(** [!v] for an environment variable: unset or empty. *)
Definition unset (v : option string) : bool :=
  match v with
  | None => true
  | Some x => string_is_empty x
  end.

End Route.

(* ================================================================== *)
(** * [app/api/analyze/route.ts] *)
(* ================================================================== *)

Module Analyze.

Import JS Route.

(** [FinishReason] of the model library. *)
Inductive FinishReason : Type :=
| FINISH_REASON_UNSPECIFIED | STOP | MAX_TOKENS | SAFETY | RECITATION
| LANGUAGE | OTHER.

Record Part : Type := mkPart { text : option string }.
Record Content : Type := mkContent { parts : option (list Part) }.
Record Candidate : Type := mkCandidate {
  finishReason : option FinishReason;
  content : option Content
}.
Record GenerateContentResponse : Type := mkGenResponse {
  candidates : option (list Candidate)
}.

(** What [fetch(imageUrl)] resolves to. *)
Record FetchResponse : Type := mkFetchResponse {
  fetch_status : nat;
  statusText : string;
  content_type : option string;      (* headers.get("content-type") *)
  arrayBuffer : Error + string       (* the body bytes, or a read error *)
}.

(** [response.ok]: a status in the range 200-299. *)
Definition ok (r : FetchResponse) : bool :=
  ((200 <=? fetch_status r) && (fetch_status r <=? 299))%nat.

(** The row given to [supabase.from("food_analyses").insert]. *)
Record AnalysisRecord : Type := mkRecord {
  rec_user_id : string;
  image_url : string;
  analysis_result : obj
}.

(** The outcome of the insert: [{ error: null }], [{ error: dbError }], or
    a rejected promise. *)
Inductive InsertOutcome : Type :=
| InsertOk
| InsertDbError (msg : string)
| InsertThrows (err : Error).

(** Everything outside the handler that one request depends on: the
    process configuration and what each collaborator answers. *)
Record Env : Type := mkEnv {
  GOOGLE_API_KEY : option string;           (* process.env.GOOGLE_API_KEY *)
  client_init_throws : bool;                (* new GoogleGenerativeAI / getGenerativeModel throws *)
  getSession : Error + SessionData;
  request_json : Error + value;             (* await request.json() *)
  fetch : Error + FetchResponse;
  generateContent : Error + GenerateContentResponse;
  JSON_parse : string -> Error + value;
  insert : InsertOutcome
}.

(** Calls to collaborators, in the order they are made. *)
Inductive call : Type :=
| CallGetSession
| CallRequestJson
| CallFetch (url : string)
| CallGenerateContent
| CallInsert (row : AnalysisRecord).

Record World : Type := mkWorld {
  food_analyses : list AnalysisRecord;      (* the persisted table *)
  calls : list call
}.

Definition M : Type -> Type := Flow.M World Response.

Definition log (c : call) : M unit :=
  Flow.modify (fun w => mkWorld (food_analyses w) (calls w ++ [c])).

Local Open Scope flow_scope.

(** ** Client initialization (module level) *)

(** [model] and [genAI] are set together: both stay null when the key is
    missing (or empty, [!apiKey]) or when the constructor throws. *)
Definition model_initialized (e : Env) : bool :=
  negb (unset (GOOGLE_API_KEY e)) && negb (client_init_throws e).

(** ** The responses *)

Definition unavailable : Response :=
  mkResponse 503
    [("error", VStr "Server configuration error: AI analysis service is unavailable.");
     ("contains_food", VBool false)].

Definition authentication_failed (details : string) : Response :=
  mkResponse 401
    [("error", VStr "Authentication failed");
     ("details", VStr details);
     ("contains_food", VBool false)].

Definition unauthorized : Response :=
  mkResponse 401 [("error", VStr "Unauthorized"); ("contains_food", VBool false)].

Definition bad_request (msg : string) : Response :=
  mkResponse 400 [("error", VStr msg); ("contains_food", VBool false)].

Definition analysis_failed (geminiError : Error) : Response :=
  mkResponse 500
    [("contains_food", VBool false);
     ("dish_name", VStr "Analysis Failed");
     ("error", VStr ("Could not process AI response: "
                     ++ message_or geminiError "Unknown AI error"))].

Definition null_result : Response :=
  mkResponse 500
    [("error", VStr "Internal server error after AI analysis.");
     ("contains_food", VBool false)].

(** The outer [catch]. *)
Definition unhandled (error : Error) : Response :=
  mkResponse 500
    [("contains_food", VBool false);
     ("dish_name", VStr "Analysis Error");
     ("error", VStr (message_or error "An unexpected server error occurred."))].

Definition success (finalResult : obj) : Response := mkResponse 200 finalResult.

(** ** Step 1: authentication *)

Definition authenticate (e : Env) : M Session :=
  log CallGetSession ;;;
  match getSession e with
  | inl error => Flow.respond (unhandled error)
  | inr data =>
      match sessionError data with
      | Some details => Flow.respond (authentication_failed details)
      | None =>
          match session data with
          | None => Flow.respond unauthorized
          | Some s => Flow.ret s
          end
      end
  end.

(** ** Step 2: the image URL of the request body *)

(** The [try] block: [body.imageUrl], checked to be a non-empty string. *)
Definition read_imageUrl (e : Env) : Error + string :=
  match request_json e with
  | inl parseError => inl parseError
  | inr body =>
      if nullish body then
        inl (mkError "TypeError" "Cannot read properties of null (reading 'imageUrl')")
      else
        let imageUrl := get body "imageUrl" in
        if negb (truthy imageUrl) || negb (type_tag_eqb (typeof imageUrl) TString)
        then inl (new_Error "imageUrl is missing or not a string in request body.")
        else match imageUrl with
             | VStr url => inr url
             | _ => inl (new_Error "imageUrl is missing or not a string in request body.")
             end
  end.

Definition parse_body (e : Env) : M string :=
  log CallRequestJson ;;;
  match read_imageUrl e with
  | inl parseError =>
      Flow.respond (bad_request ("Invalid request body: " ++ message parseError))
  | inr imageUrl => Flow.ret imageUrl
  end.

(** ** Step 3: fetching the image *)

Definition imageFetchTimeout : N := 20000.

(** The [try] block: the bytes and the MIME type of the image. *)
Definition read_image (e : Env) : Error + (string * string) :=
  match fetch e with
  | inl fetchError => inl fetchError
  | inr imageResponse =>
      if negb (ok imageResponse) then
        inl (new_Error ("Failed to fetch image: "
                        ++ show_nat (fetch_status imageResponse) ++ " "
                        ++ statusText imageResponse))
      else
        match content_type imageResponse with
        | None =>
            inl (new_Error "URL did not return a valid image (Content-Type: N/A).")
        | Some fetchedContentType =>
            if string_is_empty fetchedContentType
               || negb (startsWith fetchedContentType "image/")
            then
              inl (new_Error ("URL did not return a valid image (Content-Type: "
                     ++ (if string_is_empty fetchedContentType then "N/A"
                         else fetchedContentType)
                     ++ ")."))
            else
              match arrayBuffer imageResponse with
              | inl readError => inl readError
              | inr imageBuffer => inr (imageBuffer, fetchedContentType)
              end
        end
  end.

Definition fetch_errorMessage (fetchError : Error) : string :=
  if String.eqb (name fetchError) "TimeoutError"
  then "Fetching image timed out after "
       ++ show_nat (N.to_nat (imageFetchTimeout / 1000)) ++ " seconds."
  else "Could not fetch or process image: " ++ message fetchError.

Definition fetch_image (e : Env) (imageUrl : string) : M (string * string) :=
  log (CallFetch imageUrl) ;;;
  match read_image e with
  | inl fetchError => Flow.respond (bad_request (fetch_errorMessage fetchError))
  | inr image => Flow.ret image
  end.

(** ** Step 5: the model call and its reply *)

(** [a?.[0]] *)
Definition first {A : Type} (a : option (list A)) : option A :=
  match a with
  | Some (x :: _) => Some x
  | _ => None
  end.

(** [![FinishReason.STOP, FinishReason.MAX_TOKENS].includes(r)] *)
Definition abnormal (r : FinishReason) : bool :=
  match r with
  | STOP | MAX_TOKENS => false
  | _ => true
  end.

(** [candidate.content?.parts?.[0]?.text] *)
Definition candidate_text (candidate : Candidate) : option string :=
  match content candidate with
  | None => None
  | Some c =>
      match first (parts c) with
      | None => None
      | Some p => text p
      end
  end.

Definition fence : string := "```".

(** Cleans the code fences off the reply text. *)
Definition clean_json (rawGeminiResponseText : string) : string :=
  let jsonString := trim rawGeminiResponseText in
  if startsWith jsonString fence && endsWith jsonString fence
  then trim (substring jsonString
               (indexOf jsonString newline + 1)
               (lastIndexOf jsonString newline))
  else jsonString.

(** Parses and validates the reply text. *)
Definition parse_reply (e : Env) (rawGeminiResponseText : string) : Error + value :=
  let jsonString := clean_json rawGeminiResponseText in
  if negb (startsWith jsonString "{") || negb (endsWith jsonString "}")
  then inl (new_Error "AI response format error: Expected JSON object structure.")
  else
    match JSON_parse e jsonString with
    | inl err =>
        inl (new_Error ("AI response format error: Could not parse JSON. "
                        ++ message err))
    | inr analysisResult =>
        if negb (type_tag_eqb (typeof (get analysisResult "contains_food")) TBoolean)
        then inl (new_Error "AI response validation error: Required 'contains_food' field is missing or invalid.")
        else inr analysisResult
    end.

(** The [try] block of step 5.  The two [new Error()] of the source carry
    no message. *)
Definition analyse (e : Env) : Error + value :=
  match generateContent e with
  | inl geminiError => inl geminiError
  | inr fullGeminiResponse =>
      match first (candidates fullGeminiResponse) with
      | None => inl (new_Error EmptyString)
      | Some candidate =>
          if match finishReason candidate with
             | Some r => abnormal r
             | None => false
             end
          then inl (new_Error EmptyString)
          else
            match candidate_text candidate with
            | Some t =>
                if string_is_empty t
                then inl (new_Error "AI analysis failed: Response format unexpected (missing text content).")
                else parse_reply e t
            | None =>
                inl (new_Error "AI analysis failed: Response format unexpected (missing text content).")
            end
      end
  end.

Definition call_model (e : Env) : M value :=
  log CallGenerateContent ;;;
  match analyse e with
  | inl geminiError => Flow.respond (analysis_failed geminiError)
  | inr analysisResult =>
      if negb (truthy analysisResult) then Flow.respond null_result
      else Flow.ret analysisResult
  end.

(** ** Step 6: the standardized result *)

(** The literals [0.7] and [0.1]. *)
Definition confidence_food : number := Fin (7 # 10).
Definition confidence_no_food : number := Fin (1 # 10).

(** [Math.max(0, Math.min(1, x))] *)
Definition clamp (x : number) : number := Math_max zero (Math_min one x).

Definition confidence (analysisResult : value) : value :=
  match get analysisResult "confidence_score" with
  | VNum x => VNum (clamp x)
  | _ =>
      if truthy (get analysisResult "contains_food")
      then VNum confidence_food
      else VNum confidence_no_food
  end.

Definition finalResult (analysisResult : value) : obj :=
  let field := get analysisResult in
  let macro k := coalesce (get (field "macros") k) VUndefined in
  [ ("contains_food", field "contains_food");
    ("dish_name",
       or_else (field "dish_name")
               (if truthy (field "contains_food")
                then VStr "Unknown Dish" else VStr "N/A"));
    ("cuisine", or_else (field "cuisine") (VStr "Unknown"));
    ("serving_size", or_else (field "serving_size") (VStr "N/A"));
    ("cooking_method", coalesce (field "cooking_method") VUndefined);
    ("ingredients", or_else (field "ingredients") (VArr []));
    ("portion_size", coalesce (field "portion_size") VUndefined);
    ("total_calories", coalesce (field "total_calories") VUndefined);
    ("macros",
       VObj [ ("protein", macro "protein");
              ("carbs", macro "carbs");
              ("fiber", macro "fiber");
              ("fat", macro "fat");
              ("saturated_fat", macro "saturated_fat");
              ("unsaturated_fat", macro "unsaturated_fat") ]);
    ("portion_comparison", coalesce (field "portion_comparison") VUndefined);
    ("allergens", or_else (field "allergens") (VArr []));
    ("confidence_score", confidence analysisResult) ].

(** ** Step 7: saving the analysis *)

Definition insert_row (e : Env) (row : AnalysisRecord) : M unit :=
  Flow.modify (fun w =>
    mkWorld
      (match insert e with
       | InsertOk => food_analyses w ++ [row]
       | InsertDbError _ | InsertThrows _ => food_analyses w
       end)
      (calls w ++ [CallInsert row])).

(** Both failures of the insert are logged and dropped. *)
Definition save (e : Env) (s : Session) (imageUrl : string) (final : obj) : M unit :=
  if truthy (lookup final "contains_food")
  then insert_row e (mkRecord (user_id s) imageUrl final)
  else Flow.ret tt.

(** ** The handler *)

(** Every collaborator call after [getSession] sits in a [try] of its own,
    so the outer [catch] ([unhandled]) is reached from [authenticate]
    only.  Console output is not modelled. *)
Definition handler (e : Env) : M Response :=
  if negb (model_initialized e) then Flow.respond unavailable
  else
    s <- authenticate e ;;
    imageUrl <- parse_body e ;;
    image <- fetch_image e imageUrl ;;
    analysisResult <- call_model e ;;
    let final := finalResult analysisResult in
    save e s imageUrl final ;;;
    Flow.respond (success final).

Definition POST (e : Env) (w : World) : Response * World :=
  Flow.run (handler e) w.

End Analyze.

(* ================================================================== *)
(** * [app/api/upload/route.ts] *)
(* ================================================================== *)

Module Upload.

Import JS Route.

(** ** Configuration *)

Definition signedUrlExpireSeconds : N := 60 * 60.
Definition maxFileSizeMB : N := 5.
Definition allowedMimeTypes : list string :=
  ["image/jpeg"; "image/png"; "image/webp"; "image/gif"].

(** The [File] of the form data. *)
Record File : Type := mkFile {
  file_name : string;
  file_size : N;
  file_type : string;
  file_arrayBuffer : Error + string
}.

Record Env : Type := mkEnv {
  getSession : Error + SessionData;
  formData_file : Error + option File;      (* (await request.formData()).get("file") *)
  uuidv4 : string;
  AWS_S3_BUCKET_NAME : option string;
  AWS_ACCESS_KEY_ID : option string;
  AWS_SECRET_ACCESS_KEY : option string;
  AWS_REGION : option string;
  s3_upload : option Error;                 (* the rejection of upload().promise(), if any *)
  getSignedUrlPromise : Error + string
}.

(** [process.env.AWS_S3_BUCKET_NAME || "food-analyses-images"] *)
Definition bucketName (e : Env) : string :=
  match AWS_S3_BUCKET_NAME e with
  | Some b => if string_is_empty b then "food-analyses-images" else b
  | None => "food-analyses-images"
  end.

(** [uploadParams] *)
Record UploadParams : Type := mkUploadParams {
  Bucket : string;
  Key : string;
  Body : string;
  ContentType : string
}.

Inductive call : Type :=
| CallGetSession
| CallFormData
| CallUuidv4
| CallArrayBuffer
| CallS3Upload (params : UploadParams)
| CallGetSignedUrl (bucket key : string) (expires : N).

Record World : Type := mkWorld {
  objects : list UploadParams;              (* the object store *)
  calls : list call
}.

Definition M : Type -> Type := Flow.M World Response.

Definition log (c : call) : M unit :=
  Flow.modify (fun w => mkWorld (objects w) (calls w ++ [c])).

Local Open Scope flow_scope.

(** ** The responses *)

Definition failure (st : nat) (msg : string) : Response :=
  mkResponse st [("error", VStr msg); ("success", VBool false)].

Definition authentication_failed (details : string) : Response :=
  mkResponse 401
    [("error", VStr "Authentication failed");
     ("details", VStr details);
     ("success", VBool false)].

Definition too_large : Response :=
  failure 413 ("File too large (max " ++ show_nat (N.to_nat maxFileSizeMB) ++ "MB)").

Definition unsupported_type : Response :=
  failure 415 ("Invalid file type. Only " ++ join ", " allowedMimeTypes ++ " allowed.").

Definition unhandled (error : Error) : Response :=
  failure 500 (message_or error "An unexpected server error occurred during upload.").

Definition success (signedUrl fileName : string) : Response :=
  mkResponse 200
    [("url", VStr signedUrl); ("success", VBool true); ("s3_key", VStr fileName)].

(** ** Steps 1 to 3: who, what, and whether it is acceptable *)

Definition authenticate (e : Env) : M Session :=
  log CallGetSession ;;;
  match getSession e with
  | inl error => Flow.respond (unhandled error)
  | inr data =>
      match sessionError data with
      | Some details => Flow.respond (authentication_failed details)
      | None =>
          match session data with
          | None => Flow.respond (failure 401 "Unauthorized")
          | Some s => Flow.ret s
          end
      end
  end.

Definition read_file (e : Env) : M File :=
  log CallFormData ;;;
  match formData_file e with
  | inl err => Flow.respond (failure 400 ("Failed to parse form data: " ++ message err))
  | inr None => Flow.respond (failure 400 "No file provided")
  | inr (Some file) => Flow.ret file
  end.

Definition maxSizeBytes : N := maxFileSizeMB * 1024 * 1024.

Definition validate (file : File) : M unit :=
  if (maxSizeBytes <? file_size file)%N then Flow.respond too_large
  else if negb (includes allowedMimeTypes (file_type file))
       then Flow.respond unsupported_type
       else Flow.ret tt.

(** ** Step 4: the object key *)

(** [file.name.split(".").pop()] *)
Definition fileExt (file : File) : option string :=
  pop (split "."%char (file_name file)).

(** [`${uuidv4()}.${fileExt}`] *)
Definition make_fileName (uuid : string) (file : File) : string :=
  uuid ++ "." ++ template (fileExt file).

Definition prepare (e : Env) (file : File) : M (string * string) :=
  log CallUuidv4 ;;;
  let fileName := make_fileName (uuidv4 e) file in
  log CallArrayBuffer ;;;
  match file_arrayBuffer file with
  | inl error => Flow.respond (unhandled error)
  | inr buffer => Flow.ret (fileName, buffer)
  end.

(** ** Steps 5 to 8: the object store *)

Definition check_credentials (e : Env) : M unit :=
  if unset (AWS_ACCESS_KEY_ID e) || unset (AWS_SECRET_ACCESS_KEY e)
     || unset (AWS_REGION e)
  then Flow.respond (failure 500 "Server configuration error: AWS details missing")
  else Flow.ret tt.

Definition put_object (e : Env) (uploadParams : UploadParams) : M unit :=
  Flow.bind
    (Flow.modify (fun w =>
       mkWorld
         (match s3_upload e with
          | None => objects w ++ [uploadParams]
          | Some _ => objects w
          end)
         (calls w ++ [CallS3Upload uploadParams])))
    (fun _ =>
       match s3_upload e with
       | Some s3UploadError =>
           Flow.respond (failure 500 ("S3 upload failed: " ++ message s3UploadError))
       | None => Flow.ret tt
       end).

Definition sign (e : Env) (fileName : string) : M string :=
  log (CallGetSignedUrl (bucketName e) fileName signedUrlExpireSeconds) ;;;
  match getSignedUrlPromise e with
  | inl signingError =>
      Flow.respond
        (failure 500 ("Failed to create access URL after upload: "
                      ++ message signingError))
  | inr signedUrl => Flow.ret signedUrl
  end.

(** ** The handler *)

Definition handler (e : Env) : M Response :=
  s <- authenticate e ;;
  file <- read_file e ;;
  validate file ;;;
  prepared <- prepare e file ;;
  let fileName := fst prepared in
  let buffer := snd prepared in
  check_credentials e ;;;
  put_object e (mkUploadParams (bucketName e) fileName buffer (file_type file)) ;;;
  signedUrl <- sign e fileName ;;
  Flow.respond (success signedUrl fileName).

Definition POST (e : Env) (w : World) : Response * World :=
  Flow.run (handler e) w.

End Upload.

(* ================================================================== *)
(** * The vocabulary of the analyze properties *)
(* ================================================================== *)

Module AnalyzeSpec.

Import JS Route Analyze.

(** The reply passed validation: [typeof contains_food === "boolean"]. *)
Definition validated (r : value) : Prop :=
  typeof (get r "contains_food") = TBoolean.






(** [y] is [x] clamped into [0,1]: 0 below the interval, 1 above it, and
    (numerically) [x] itself inside. *)
Definition clamped (x y : number) : Prop :=
  (num_ltb x zero = true -> y = zero) /\
  (num_ltb one x = true -> y = one) /\
  (num_ltb x zero = false -> num_ltb one x = false -> num_eq y x).

(** The request got as far as the model call: the client is initialized,
    the caller [s] has a session, the body carries the URL [url], and the
    image behind it was fetched. *)
Definition reaches_model (e : Env) (s : Session) (url : string) : Prop :=
  model_initialized e = true /\
  getSession e = inr (mkSessionData (Some s) None) /\
  read_imageUrl e = inr url /\
  exists image, read_image e = inr image.

(** The calls made up to and including the model call. *)
Definition calls_to_model (url : string) : list call :=
  [CallGetSession; CallRequestJson; CallFetch url; CallGenerateContent].

(** The same environment with another answer of the persistence store. *)
Definition with_insert (e : Env) (o : InsertOutcome) : Env :=
  mkEnv (GOOGLE_API_KEY e) (client_init_throws e) (getSession e)
        (request_json e) (fetch e) (generateContent e) (JSON_parse e) o.

End AnalyzeSpec.

(* ================================================================== *)
(** * The vocabulary of the upload properties *)
(* ================================================================== *)

Module UploadSpec.

Import JS Route Upload.

(** [s.includes(c)] for a one-character [c]. *)
Fixpoint contains (c : ascii) (s : string) : bool :=
  match s with
  | EmptyString => false
  | String a rest => Ascii.eqb a c || contains c rest
  end.

(** The upload passed steps 1 to 3: the caller [s] has a session, the form
    carries the file [f], and [f] is small enough and of an allowed type. *)
Definition accepted (e : Env) (s : Session) (f : File) : Prop :=
  getSession e = inr (mkSessionData (Some s) None) /\
  formData_file e = inr (Some f) /\
  (file_size f <= 5242880)%N /\
  includes allowedMimeTypes (file_type f) = true.

(** The three AWS variables are set. *)
Definition configured (e : Env) : Prop :=
  unset (AWS_ACCESS_KEY_ID e) = false /\
  unset (AWS_SECRET_ACCESS_KEY e) = false /\
  unset (AWS_REGION e) = false.

End UploadSpec.

(* ================================================================== *)
(** * Example requests to the analyze route *)
(* ================================================================== *)

Module AnalyzeExamples.

Import JS Route Analyze AnalyzeSpec.

(** The reply of the scenario of the specification: food, calories, and
    nothing else. *)
Definition calories_only : value :=
  VObj [("contains_food", VBool true); ("total_calories", VNum (Fin 450))].

(** A reply that is too sure of itself: confidence 3/2. *)
Definition overconfident : value :=
  VObj [("contains_food", VBool true); ("confidence_score", VNum (Fin (3 # 2)))].

(** The double quote. *)
Definition dq : string := String (ascii_of_nat 34) EmptyString.

Definition food_text : string := "{" ++ dq ++ "contains_food" ++ dq ++ ": true}".
Definition no_food_text : string := "{" ++ dq ++ "contains_food" ++ dq ++ ": false}".

(** [JSON.parse] on the two texts above; any other text is a syntax error
    here. *)
Definition parse_table (t : string) : Error + value :=
  if String.eqb t food_text then inr (VObj [("contains_food", VBool true)])
  else if String.eqb t no_food_text then inr (VObj [("contains_food", VBool false)])
  else inl (mkError "SyntaxError" "Unexpected token").

Definition alice : Session := mkSession "user-1".

Definition signed_url : string :=
  "https://food-analyses-images.s3.eu-west-1.amazonaws.com/k.jpg?X-Amz-Signature=ab".

Definition model_says (t : string) : Error + GenerateContentResponse :=
  inr (mkGenResponse
         (Some [mkCandidate (Some STOP) (Some (mkContent (Some [mkPart (Some t)])))])).

(** A request of a signed-in caller for a fetchable JPEG. *)
Definition request_of_alice (reply : Error + GenerateContentResponse)
           (o : InsertOutcome) : Env :=
  mkEnv (Some "key") false
        (inr (mkSessionData (Some alice) None))
        (inr (VObj [("imageUrl", VStr signed_url)]))
        (inr (mkFetchResponse 200 "OK" (Some "image/jpeg") (inr "bytes")))
        reply parse_table o.

(** A request without a session, on a server without [GOOGLE_API_KEY]. *)
Definition anonymous_unconfigured : Env :=
  mkEnv None false
        (inr (mkSessionData None None))
        (inr (VObj [("imageUrl", VStr signed_url)]))
        (inr (mkFetchResponse 200 "OK" (Some "image/jpeg") (inr "bytes")))
        (model_says food_text) parse_table InsertOk.

(** The same request on a configured server. *)
Definition anonymous_configured : Env :=
  mkEnv (Some "key") false
        (inr (mkSessionData None None))
        (inr (VObj [("imageUrl", VStr signed_url)]))
        (inr (mkFetchResponse 200 "OK" (Some "image/jpeg") (inr "bytes")))
        (model_says food_text) parse_table InsertOk.

Definition empty_world : World := mkWorld [] [].

(** The model call is rejected. *)
Definition quota_exceeded : Error + GenerateContentResponse :=
  inl (new_Error "429 Too Many Requests").

Definition throttled : Env := request_of_alice quota_exceeded InsertOk.

(** The persistence store refuses the insert. *)
Definition store_down : InsertOutcome := InsertDbError "connection refused".

(** The model finds food in the image of alice. *)
Definition food_request (o : InsertOutcome) : Env :=
  request_of_alice (model_says food_text) o.

Definition food_reply : value := VObj [("contains_food", VBool true)].

End AnalyzeExamples.

(* ================================================================== *)
(** * Example requests to the upload route *)
(* ================================================================== *)

Module UploadExamples.

Import JS Route Upload UploadSpec.

Definition bob : Session := mkSession "user-2".

(** A signed-in caller sends [f] to a configured server whose object store
    works. *)
Definition upload_of_bob (f : File) : Env :=
  mkEnv (inr (mkSessionData (Some bob) None)) (inr (Some f))
        "3f2b8c1e-7d4a-4e5b-9c6d-1a2b3c4d5e6f"
        None (Some "AKIA") (Some "secret") (Some "eu-west-1")
        None
        (inr "https://food-analyses-images.s3.eu-west-1.amazonaws.com/k?X-Amz-Signature=ab").

Definition six_mebibytes : File :=
  mkFile "feast.png" 6291456 "image/png" (inr "bytes").

Definition empty_world : World := mkWorld [] [].

Definition dinner : File :=
  mkFile "dinner.plate.JPG" 2000000 "image/jpeg" (inr "bytes").

End UploadExamples.

(* ================================================================== *)
(** * [app/auth/callback/route.ts] *)
(* ================================================================== *)

Module Callback.

Import JS Route.

Local Open Scope string_scope.

(** What [new URL(request.url)] gives: [origin] and
    [searchParams.get("code")]. *)
Record RequestUrl : Type := mkRequestUrl {
  origin : string;
  code : option string
}.

Record Env : Type := mkEnv {
  request_url : Error + RequestUrl;           (* new URL(request.url), or its TypeError *)
  nextUrl_origin : string;                    (* request.nextUrl.origin *)
  exchangeCodeForSession : Error + option string;  (* rejected, or { error } with its message *)
  encodeURIComponent : string -> string
}.

Inductive call : Type :=
| CallExchange (code : string).

(** The redirect of the outer [catch]. *)
Definition server_error (e : Env) : string :=
  nextUrl_origin e ++ "/login?error=ServerError&message="
    ++ encodeURIComponent e "An unexpected error occurred during authentication.".

(** [GET]: the URL of [NextResponse.redirect] and the calls made. *)
Definition GET (e : Env) : string * list call :=
  match request_url e with
  | inl _ => (server_error e, [])
  | inr requestUrl =>
      match code requestUrl with
      | Some c =>
          if string_is_empty c
          then (origin requestUrl ++ "/login?error=NoCode", [])
          else
            match exchangeCodeForSession e with
            | inl _ => (server_error e, [CallExchange c])
            | inr (Some msg) =>
                (origin requestUrl ++ "/login?error=AuthError&message="
                   ++ encodeURIComponent e msg,
                 [CallExchange c])
            | inr None => (origin requestUrl ++ "/dashboard", [CallExchange c])
            end
      | None => (origin requestUrl ++ "/login?error=NoCode", [])
      end
  end.

End Callback.

(* ================================================================== *)
(** * [components/image-uploader.tsx]: the checks before the upload *)
(* ================================================================== *)

Module Uploader.

Import JS Route.

Record Toast : Type := mkToast {
  title : string;
  description : string;
  variant : option string
}.

(** What [handleFileChange] does, in order. *)
Inductive effect : Type :=
| ShowToast (t : Toast)
| SetPreview (file : Upload.File)          (* setPreview(URL.createObjectURL(file)) *)
| UploadImage (file : Upload.File).        (* await uploadImage(file) *)

(** [handleFileChange] on [e.target.files]. *)
Definition handleFileChange (files : option (list Upload.File)) : list effect :=
  match files with
  | None | Some [] => []
  | Some (file :: _) =>
      if (5 * 1024 * 1024 <? Upload.file_size file)%N then
        [ShowToast (mkToast "File too large"
                            "Please select an image under 5MB."
                            (Some "destructive"))]
      else if negb (startsWith (Upload.file_type file) "image/") then
        [ShowToast (mkToast "Invalid file type"
                            "Please select an image file."
                            (Some "destructive"))]
      else [SetPreview file; UploadImage file]
  end.

End Uploader.

(* ================================================================== *)
(** * [app/dashboard/page.tsx]: the two handlers *)
(* ================================================================== *)

Module Dashboard.

Import JS Route.

(** [s.includes(sub)] *)
Fixpoint includes_text (s sub : string) : bool :=
  String.prefix sub s
  || match s with
     | EmptyString => false
     | String _ rest => includes_text rest sub
     end.

(** ** The response as the browser sees it *)

(** [JSON.parse(JSON.stringify(v))]: a property that is undefined is left
    out, an infinite number and an undefined array item become null. *)
Fixpoint wire (v : value) : value :=
  match v with
  | VNum PosInf | VNum NegInf => VNull
  | VArr items =>
      VArr (map (fun x => match x with VUndefined => VNull | _ => wire x end)
                items)
  | VObj props =>
      VObj ((fix go (ps : list (string * value)) : list (string * value) :=
               match ps with
               | [] => []
               | (k, x) :: rest =>
                   match x with
                   | VUndefined => go rest
                   | _ => (k, wire x) :: go rest
                   end
               end) props)
  | _ => v
  end.

(** The properties of an object after the same round trip. *)
Fixpoint wire_props (ps : list (string * value)) : list (string * value) :=
  match ps with
  | [] => []
  | (k, x) :: rest =>
      match x with
      | VUndefined => wire_props rest
      | _ => (k, wire x) :: wire_props rest
      end
  end.

(** What [fetch("/api/analyze")] resolves to: the status, and what
    [response.json()] gives. *)
Record ClientResponse : Type := mkClientResponse {
  client_status : nat;
  json : Error + value
}.

Definition client_ok (r : ClientResponse) : bool :=
  ((200 <=? client_status r) && (client_status r <=? 299))%nat.

(** The response of the analyze route on its way to the browser. *)
Definition delivered (r : Response) : ClientResponse :=
  mkClientResponse (status r) (inr (wire (VObj (body r)))).

(** ** The handlers *)

(** A toast; the description is whatever value the handler passes. *)
Record Toast : Type := mkToast {
  title : string;
  description : value;
  variant : option string
}.

Inductive effect : Type :=
| SetImageUrl (url : option string)
| SetAnalysisResult (r : option value)
| SetIsAnalyzing (b : bool)
| ShowToast (t : Toast)
| FetchAnalyze (imageUrl : string).     (* fetch("/api/analyze", { body: { imageUrl } }) *)

(** The check both handlers make on a URL. *)
Definition isPreSigned (url : string) : bool :=
  includes_text url "X-Amz-Signature=" && includes_text url "X-Amz-Expires=".

Definition url_issue : Toast :=
  mkToast "Potential URL Issue"
          (VStr "Received image URL might not be correctly signed for access.")
          (Some "default").

(** [handleImageUpload(url, error)] *)
Definition handleImageUpload (url : option string) (error : option Error)
  : list effect :=
  match error with
  | Some _ => [SetImageUrl None; SetAnalysisResult None]
  | None =>
      match url with
      | Some u =>
          if string_is_empty u
          then [SetImageUrl None; SetAnalysisResult None]
          else (if isPreSigned u then [] else [ShowToast url_issue])
               ++ [SetImageUrl (Some u); SetAnalysisResult None]
      | None => [SetImageUrl None; SetAnalysisResult None]
      end
  end.

Section WithToString.

(** [String(v)] for a value that is no string is left to the engine. *)
Variable engine_ToString : value -> string.

Definition ToString (v : value) : string :=
  match v with
  | VStr s => s
  | _ => engine_ToString v
  end.

(** The toast after a response with a 2xx status. *)
Definition result_toast (result : value) : Toast :=
  if (match get result "contains_food" with VBool false => true | _ => false end)
     && truthy (get result "error")
  then mkToast "Analysis Issue" (get result "error") (Some "destructive")
  else if truthy (get result "contains_food")
  then mkToast "Analysis Complete"
               (VStr ("Identified: "
                      ++ ToString (or_else (get result "dish_name")
                                           (VStr "Food item"))))
               None
  else mkToast "No Food Detected"
               (VStr "The AI couldn't detect recognizable food in this image.")
               (Some "default").

(** The body of the [try] of [analyzeImage]: what it does before it either
    finishes or throws. *)
Definition try_analyze (imageUrl : string) (session : option Session)
           (fetched : Error + ClientResponse) : list effect * option Error :=
  match session with
  | None => ([], Some (new_Error "Authentication required to analyze images."))
  | Some _ =>
      match fetched with
      | inl err => ([FetchAnalyze imageUrl], Some err)
      | inr response =>
          match json response with
          | inl err => ([FetchAnalyze imageUrl], Some err)
          | inr result =>
              if negb (client_ok response) then
                if nullish result then
                  ([FetchAnalyze imageUrl],
                   Some (mkError "TypeError"
                           "Cannot read properties of null (reading 'error')"))
                else
                  ([FetchAnalyze imageUrl],
                   Some (new_Error
                           (ToString
                              (or_else (get result "error")
                                       (VStr ("Analysis failed with status "
                                              ++ show_nat (client_status response)))))))
              else if nullish result then
                ([FetchAnalyze imageUrl; SetAnalysisResult None],
                 Some (mkError "TypeError"
                         "Cannot read properties of null (reading 'contains_food')"))
              else
                ([FetchAnalyze imageUrl;
                  SetAnalysisResult (Some result);
                  ShowToast (result_toast result)],
                 None)
          end
      end
  end.

Definition error_toast (error : Error) : Toast :=
  mkToast "Error During Analysis"
          (VStr (message_or error "An unexpected error occurred."))
          (Some "destructive").

(** [analyzeImage], with the state it closes over ([imageUrl], [session])
    and the answer of the fetch. *)
Definition analyzeImage (imageUrl : option string) (session : option Session)
           (fetched : Error + ClientResponse) : list effect :=
  match imageUrl with
  | None =>
      [ShowToast (mkToast "No image selected"
                          (VStr "Please upload an image to analyze.")
                          (Some "destructive"))]
  | Some url =>
      if string_is_empty url then
        [ShowToast (mkToast "No image selected"
                            (VStr "Please upload an image to analyze.")
                            (Some "destructive"))]
      else if negb (isPreSigned url) then
        [ShowToast (mkToast "Analysis Error"
                            (VStr "Cannot analyze image. The image URL seems invalid or may have expired.")
                            (Some "destructive"))]
      else
        [SetIsAnalyzing true; SetAnalysisResult None]
        ++ (match try_analyze url session fetched with
            | (done, None) => done
            | (done, Some error) =>
                done ++ [ShowToast (error_toast error); SetAnalysisResult None]
            end)
        ++ [SetIsAnalyzing false]
  end.

End WithToString.

End Dashboard.

(* ================================================================== *)
(** * Example requests to the callback route and example files *)
(* ================================================================== *)

Module ClientExamples.

Import JS Route.

(** The callback URL with a code, on the site itself. *)
Definition with_code : Callback.RequestUrl :=
  Callback.mkRequestUrl "https://dish.example" (Some "pkce-code").

(** An encoder that leaves the text alone: enough for the examples. *)
Definition returning (u : Callback.RequestUrl) (answer : Error + option string)
  : Callback.Env :=
  Callback.mkEnv (inr u) (Callback.origin u) answer (fun s => s).

(** A vector drawing: an image for the browser, not for the upload route. *)
Definition drawing : Upload.File :=
  Upload.mkFile "logo.svg" 2048 "image/svg+xml" (inr "bytes").

(** A URL as the upload route returns it. *)
Definition presigned_url : string :=
  "https://food-analyses-images.s3.eu-west-1.amazonaws.com/k.jpg?X-Amz-Expires=3600&X-Amz-Signature=ab".

(** The engine's [String(v)], for values that are no strings: not needed
    in the examples. *)
Definition no_ToString (v : value) : string := "[object Object]".

End ClientExamples.

(* ================================================================== *)
(** * The ways a request to the analyze route can end *)
(* ================================================================== *)

Module AnalyzeOutcomes.

Import JS Route Analyze AnalyzeSpec.

(** The world after the calls [cs], nothing stored. *)
Definition logged (w : World) (cs : list call) : World :=
  mkWorld (food_analyses w) (calls w ++ cs).

(** The caller [s] has a session on a server whose model client is
    initialized. *)
Definition signed_in (e : Env) (s : Session) : Prop :=
  model_initialized e = true /\
  getSession e = inr (mkSessionData (Some s) None).

(** The status codes of the route. *)
Definition statuses : list nat := [200; 400; 401; 500; 503].

(** One constructor for each [return] of the handler that can be reached,
    with the condition that leads to it and the world it leaves. *)
Inductive outcome (e : Env) (w : World) : Response -> World -> Prop :=
| out_unavailable :
    model_initialized e = false ->
    outcome e w unavailable w
| out_guard_throws (err : Error) :
    model_initialized e = true ->
    getSession e = inl err ->
    outcome e w (unhandled err) (logged w [CallGetSession])
| out_auth_failed (d : SessionData) (details : string) :
    model_initialized e = true ->
    getSession e = inr d ->
    sessionError d = Some details ->
    outcome e w (authentication_failed details) (logged w [CallGetSession])
| out_unauthorized (d : SessionData) :
    model_initialized e = true ->
    getSession e = inr d ->
    sessionError d = None ->
    session d = None ->
    outcome e w unauthorized (logged w [CallGetSession])
| out_bad_body (s : Session) (err : Error) :
    signed_in e s ->
    read_imageUrl e = inl err ->
    outcome e w (bad_request ("Invalid request body: " ++ message err))
            (logged w [CallGetSession; CallRequestJson])
| out_bad_image (s : Session) (url : string) (err : Error) :
    signed_in e s ->
    read_imageUrl e = inr url ->
    read_image e = inl err ->
    outcome e w (bad_request (fetch_errorMessage err))
            (logged w [CallGetSession; CallRequestJson; CallFetch url])
| out_model_failed (s : Session) (url : string) (err : Error) :
    reaches_model e s url ->
    analyse e = inl err ->
    outcome e w (analysis_failed err) (logged w (calls_to_model url))
| out_no_food (s : Session) (url : string) (r : value) :
    reaches_model e s url ->
    analyse e = inr r ->
    truthy (get r "contains_food") = false ->
    outcome e w (success (finalResult r)) (logged w (calls_to_model url))
| out_food (s : Session) (url : string) (r : value) :
    reaches_model e s url ->
    analyse e = inr r ->
    truthy (get r "contains_food") = true ->
    outcome e w (success (finalResult r))
            (mkWorld
               (match insert e with
                | InsertOk =>
                    food_analyses w ++ [mkRecord (user_id s) url (finalResult r)]
                | _ => food_analyses w
                end)
               (calls w ++ calls_to_model url
                  ++ [CallInsert (mkRecord (user_id s) url (finalResult r))])).

(** The calls of a request that goes all the way, in order. *)
Definition full_trace (url : string) (row : AnalysisRecord) : list call :=
  calls_to_model url ++ [CallInsert row].

(** [l] is an initial part of [full]. *)
Definition initial_part {A : Type} (l full : list A) : Prop :=
  exists rest, full = l ++ rest.

(** The request is answered with status [st], the error text [msg] and
    [contains_food: false], after the calls [cs] and without storing
    anything. *)
Definition rejected_with (e : Env) (w : World) (st : nat) (msg : string)
           (cs : list call) : Prop :=
  status (fst (POST e w)) = st /\
  lookup (body (fst (POST e w))) "error" = VStr msg /\
  lookup (body (fst (POST e w))) "contains_food" = VBool false /\
  snd (POST e w) = logged w cs.

(** The content type as the error text of step 3 shows it. *)
Definition shown_content_type (r : FetchResponse) : string :=
  match content_type r with
  | Some ct => if string_is_empty ct then "N/A" else ct
  | None => "N/A"
  end.

End AnalyzeOutcomes.

(* ================================================================== *)
(** * More example requests to the analyze route *)
(* ================================================================== *)

Module AnalyzeCasesExamples.

Import JS Route Analyze AnalyzeSpec AnalyzeExamples AnalyzeOutcomes.

Definition jpeg : Error + FetchResponse :=
  inr (mkFetchResponse 200 "OK" (Some "image/jpeg") (inr "bytes")).

(** A request of alice with the given body, image and model reply. *)
Definition request_with (body : Error + value) (image : Error + FetchResponse)
           (reply : Error + GenerateContentResponse) : Env :=
  mkEnv (Some "key") false (inr (mkSessionData (Some alice) None))
        body image reply parse_table InsertOk.

(** The body [{"url": ...}]: the key is not the one the route reads. *)
Definition misnamed_body : value := VObj [("url", VStr signed_url)].

(** A body whose URL is no S3 URL at all. *)
Definition plain_http_body : value :=
  VObj [("imageUrl", VStr "http://example.org/cat.png")].

Definition not_found : FetchResponse :=
  mkFetchResponse 404 "Not Found" (Some "application/xml") (inr "NoSuchKey").

Definition html_page : FetchResponse :=
  mkFetchResponse 200 "OK" (Some "text/html") (inr "page").

Definition timed_out : Error :=
  mkError "TimeoutError" "The operation was aborted due to timeout".

(** The session guard reports an error although it still holds a session. *)
Definition expired : Env :=
  mkEnv (Some "key") false
        (inr (mkSessionData (Some alice) (Some "JWT expired")))
        (inr (VObj [("imageUrl", VStr signed_url)])) jpeg
        (model_says food_text) parse_table InsertOk.

(** The model stops for safety, with an otherwise valid text. *)
Definition blocked_candidate : Candidate :=
  mkCandidate (Some SAFETY) (Some (mkContent (Some [mkPart (Some food_text)]))).

Definition blocked : Error + GenerateContentResponse :=
  inr (mkGenResponse (Some [blocked_candidate])).

End AnalyzeCasesExamples.

(* ================================================================== *)
(** * Fenced replies *)
(* ================================================================== *)

Module ReplyTextSpec.

Import JS Analyze.

Definition nl : string := String newline EmptyString.

(** The text [body] in a code fence with the language tag [lang]. *)
Definition fenced (lang body : string) : string :=
  fence ++ lang ++ nl ++ body ++ nl ++ fence.

(** A fenced reply written on one line. *)
Definition one_line : string := fence ++ AnalyzeExamples.food_text ++ fence.

(** The one-byte text of the byte [n]. *)
Definition byte (n : nat) : string := String (ascii_of_nat n) EmptyString.

(** U+00A0, U+FEFF, U+2028 and U+3000 in UTF-8. *)
Definition nbsp : string := byte 194 ++ byte 160.
Definition bom : string := byte 239 ++ byte 187 ++ byte 191.
Definition line_separator : string := byte 226 ++ byte 128 ++ byte 168.
Definition ideographic_space : string := byte 227 ++ byte 128 ++ byte 128.

(** U+00E0, a letter whose encoding C3 A0 ends with the byte 160. *)
Definition a_grave : string := byte 195 ++ byte 160.

(** The reply between white space of every width. *)
Definition padded_food_text : string :=
  bom ++ nbsp ++ nl ++ AnalyzeExamples.food_text
      ++ line_separator ++ " " ++ ideographic_space.

End ReplyTextSpec.

(* ================================================================== *)
(** * The ways a request to the upload route can end *)
(* ================================================================== *)

Module UploadOutcomes.

Import JS Route Upload UploadSpec.

(** The world after the calls [cs], nothing written. *)
Definition logged (w : World) (cs : list call) : World :=
  mkWorld (objects w) (calls w ++ cs).

(** The caller [s] has a session and the form carries the file [f]. *)
Definition received (e : Env) (s : Session) (f : File) : Prop :=
  getSession e = inr (mkSessionData (Some s) None) /\
  formData_file e = inr (Some f).

(** One of the three AWS variables is unset or empty. *)
Definition unconfigured (e : Env) : bool :=
  unset (AWS_ACCESS_KEY_ID e) || unset (AWS_SECRET_ACCESS_KEY e)
  || unset (AWS_REGION e).

(** The calls made before the object store is reached. *)
Definition calls_to_store : list call :=
  [CallGetSession; CallFormData; CallUuidv4; CallArrayBuffer].

(** What the route writes for the file [f] with the bytes [buffer]. *)
Definition object_of (e : Env) (f : File) (buffer : string) : UploadParams :=
  mkUploadParams (bucketName e) (make_fileName (uuidv4 e) f) buffer (file_type f).

(** The signing call for the file [f]. *)
Definition signing_of (e : Env) (f : File) : call :=
  CallGetSignedUrl (bucketName e) (make_fileName (uuidv4 e) f)
                   signedUrlExpireSeconds.

(** The status codes of the route. *)
Definition statuses : list nat := [200; 400; 401; 413; 415; 500].

(** One constructor for each [return] of the handler, with the condition
    that leads to it and the world it leaves. *)
Inductive outcome (e : Env) (w : World) : Response -> World -> Prop :=
| out_guard_throws (err : Error) :
    getSession e = inl err ->
    outcome e w (unhandled err) (logged w [CallGetSession])
| out_auth_failed (d : SessionData) (details : string) :
    getSession e = inr d ->
    sessionError d = Some details ->
    outcome e w (authentication_failed details) (logged w [CallGetSession])
| out_unauthorized (d : SessionData) :
    getSession e = inr d ->
    sessionError d = None ->
    session d = None ->
    outcome e w (failure 401 "Unauthorized") (logged w [CallGetSession])
| out_form_error (s : Session) (err : Error) :
    getSession e = inr (mkSessionData (Some s) None) ->
    formData_file e = inl err ->
    outcome e w (failure 400 ("Failed to parse form data: " ++ message err))
            (logged w [CallGetSession; CallFormData])
| out_no_file (s : Session) :
    getSession e = inr (mkSessionData (Some s) None) ->
    formData_file e = inr None ->
    outcome e w (failure 400 "No file provided")
            (logged w [CallGetSession; CallFormData])
| out_too_large (s : Session) (f : File) :
    received e s f ->
    (5242880 < file_size f)%N ->
    outcome e w too_large (logged w [CallGetSession; CallFormData])
| out_bad_type (s : Session) (f : File) :
    received e s f ->
    (file_size f <= 5242880)%N ->
    includes allowedMimeTypes (file_type f) = false ->
    outcome e w unsupported_type (logged w [CallGetSession; CallFormData])
| out_unreadable (s : Session) (f : File) (err : Error) :
    accepted e s f ->
    file_arrayBuffer f = inl err ->
    outcome e w (unhandled err) (logged w calls_to_store)
| out_unconfigured (s : Session) (f : File) (buffer : string) :
    accepted e s f ->
    file_arrayBuffer f = inr buffer ->
    unconfigured e = true ->
    outcome e w (failure 500 "Server configuration error: AWS details missing")
            (logged w calls_to_store)
| out_upload_failed (s : Session) (f : File) (buffer : string) (err : Error) :
    accepted e s f ->
    file_arrayBuffer f = inr buffer ->
    unconfigured e = false ->
    s3_upload e = Some err ->
    outcome e w (failure 500 ("S3 upload failed: " ++ message err))
            (logged w (calls_to_store ++ [CallS3Upload (object_of e f buffer)]))
| out_sign_failed (s : Session) (f : File) (buffer : string) (err : Error) :
    accepted e s f ->
    file_arrayBuffer f = inr buffer ->
    unconfigured e = false ->
    s3_upload e = None ->
    getSignedUrlPromise e = inl err ->
    outcome e w
            (failure 500 ("Failed to create access URL after upload: "
                          ++ message err))
            (mkWorld (objects w ++ [object_of e f buffer])
                     (calls w ++ calls_to_store
                        ++ [CallS3Upload (object_of e f buffer); signing_of e f]))
| out_stored (s : Session) (f : File) (buffer url : string) :
    accepted e s f ->
    file_arrayBuffer f = inr buffer ->
    unconfigured e = false ->
    s3_upload e = None ->
    getSignedUrlPromise e = inr url ->
    outcome e w (success url (make_fileName (uuidv4 e) f))
            (mkWorld (objects w ++ [object_of e f buffer])
                     (calls w ++ calls_to_store
                        ++ [CallS3Upload (object_of e f buffer); signing_of e f])).

(** The request is answered with status [st], the error text [msg] and
    [success: false], after the calls [cs] and without writing to the
    object store. *)
Definition rejected_with (e : Env) (w : World) (st : nat) (msg : string)
           (cs : list call) : Prop :=
  status (fst (POST e w)) = st /\
  lookup (body (fst (POST e w))) "error" = VStr msg /\
  lookup (body (fst (POST e w))) "success" = VBool false /\
  snd (POST e w) = logged w cs.

End UploadOutcomes.

(* ================================================================== *)
(** * More example requests to the upload route *)
(* ================================================================== *)

Module UploadCasesExamples.

Import JS Route Upload UploadSpec UploadExamples UploadOutcomes.

Definition presigned : string :=
  "https://food-analyses-images.s3.eu-west-1.amazonaws.com/k?X-Amz-Signature=ab&X-Amz-Expires=3600".

(** A server described by the answer of the session guard, the form, the
    region variable and the answers of the object store. *)
Definition server (guard : Error + SessionData) (form : Error + option File)
           (region : option string) (put : option Error)
           (signed : Error + string) : Env :=
  mkEnv guard form "3f2b8c1e-7d4a-4e5b-9c6d-1a2b3c4d5e6f"
        None (Some "AKIA") (Some "secret") region put signed.

Definition bob_signed_in : Error + SessionData :=
  inr (mkSessionData (Some bob) None).

Definition nobody : Error + SessionData := inr (mkSessionData None None).

(** A bitmap: an image, but not of an allowed type. *)
Definition bitmap : File := mkFile "scan.bmp" 1000 "image/bmp" (inr "bytes").

(** A file of exactly 5 MiB. *)
Definition five_mebibytes : File :=
  mkFile "plate.webp" 5242880 "image/webp" (inr "bytes").

Definition access_denied : Error := mkError "AccessDenied" "Access Denied".

End UploadCasesExamples.

(* ================================================================== *)
(** * Properties of the JavaScript fragment *)
(* ================================================================== *)

Module JSFacts.

Import JS.

Lemma Qltb_true (x y : Q) : Qltb x y = true <-> (x < y)%Q.
Proof.
  unfold Qltb. rewrite negb_true_iff.
  split; intro H.
  - apply Qnot_le_lt. intro L. apply Qle_bool_iff in L. congruence.
  - destruct (Qle_bool y x) eqn:E; [|reflexivity].
    apply Qle_bool_iff in E. exfalso. apply (Qlt_not_le _ _ H E).
Qed.

Lemma Qltb_false (x y : Q) : Qltb x y = false <-> (y <= x)%Q.
Proof.
  unfold Qltb. rewrite negb_false_iff. apply Qle_bool_iff.
Qed.

Lemma or_else_idem (a d : value) : or_else (or_else a d) d = or_else a d.
Proof.
  unfold or_else. destruct (truthy a) eqn:Ha.
  - now rewrite Ha.
  - now destruct (truthy d).
Qed.



Lemma or_else_keeps (a d : value) : truthy a = true -> or_else a d = a.
Proof. unfold or_else. now intros ->. Qed.


Lemma coalesce_idem (a : value) :
  coalesce (coalesce a VUndefined) VUndefined = coalesce a VUndefined.
Proof. now destruct a. Qed.


(** A boolean property makes its owner an object. *)
Lemma boolean_property_object (v : value) (k : string) :
  typeof (get v k) = TBoolean -> exists o, v = VObj o.
Proof. destruct v; simpl; try discriminate. eauto. Qed.

End JSFacts.

(* ================================================================== *)
(** * The standardized result (step 6) *)
(* ================================================================== *)

Module Normalization.

Import JS Route Analyze AnalyzeSpec AnalyzeExamples JSFacts.

Local Open Scope Q_scope.

Lemma clamp_cases (x : number) :
  clamp x = zero \/ clamp x = one \/
  (clamp x = x /\ exists q, x = Fin q /\ (0 < q)%Q /\ (q < 1)%Q).
Proof.
  destruct x as [q| |]; cbv [clamp Math_max Math_min one zero num_ltb].
  - destruct (Qltb q 1) eqn:H1.
    + destruct (Qltb 0 q) eqn:H0.
      * right; right. split; [reflexivity|].
        exists q. apply Qltb_true in H1, H0. auto.
      * now left.
    + right; left. reflexivity.
  - right; left. reflexivity.
  - left. reflexivity.
Qed.

Lemma clamp_idem (x : number) : clamp (clamp x) = clamp x.
Proof.
  destruct (clamp_cases x) as [-> | [-> | [E _]]].
  - reflexivity.
  - reflexivity.
  - now rewrite !E.
Qed.

Lemma clamp_in_unit (x : number) : in_unit_interval (clamp x).
Proof.
  destruct (clamp_cases x) as [-> | [-> | [-> (q & -> & H0 & H1)]]]; simpl.
  - split; [apply Qle_refl | discriminate].
  - split; [discriminate | apply Qle_refl].
  - split; now apply Qlt_le_weak.
Qed.

Lemma clamp_clamped (x : number) : clamped x (clamp x).
Proof.
  destruct x as [q| |]; cbv [clamped clamp Math_max Math_min one zero num_ltb num_eq].
  - destruct (Qltb q 1) eqn:H1.
    + destruct (Qltb 0 q) eqn:H0.
      * repeat split; intros; try reflexivity.
        -- apply Qltb_true in H, H0. exfalso.
           apply (Qlt_irrefl 0). now apply Qlt_trans with q.
        -- apply Qltb_true in H, H1. exfalso.
           apply (Qlt_irrefl 1). now apply Qlt_trans with q.
      * repeat split; intros; try reflexivity.
        -- apply Qltb_true in H, H1. apply Qltb_false in H0. exfalso.
           apply (Qlt_irrefl 1). apply Qlt_trans with q; [assumption|].
           apply Qle_lt_trans with 0; [assumption | reflexivity].
        -- apply Qltb_false in H, H0. symmetry. now apply Qle_antisym.
    + repeat split; intros; try reflexivity.
      * apply Qltb_true in H. apply Qltb_false in H1. exfalso.
        apply (Qlt_irrefl q). apply Qlt_le_trans with 0; [assumption|].
        apply Qle_trans with 1; [discriminate | assumption].
      * apply Qltb_false in H0, H1. now apply Qle_antisym.
  - repeat split; intros; try reflexivity; discriminate.
  - repeat split; intros; try reflexivity; discriminate.
Qed.

(** Step 6 always gives a number as the confidence. *)
Lemma confidence_number (r : value) :
  exists y, confidence r = VNum y /\ clamp y = y /\ in_unit_interval y.
Proof.
  unfold confidence.
  destruct (get r "confidence_score") as [ | | b | x | s | xs | ps ];
    try (destruct (truthy (get r "contains_food"));
         (eexists; split; [reflexivity|]; split;
          [reflexivity | vm_compute; split; discriminate])).
  exists (clamp x). split; [reflexivity|]. split.
  - apply clamp_idem.
  - apply clamp_in_unit.
Qed.

Lemma lookup_final_confidence (r : value) :
  lookup (finalResult r) "confidence_score" = confidence r.
Proof. reflexivity. Qed.

Lemma confidence_final (r : value) :
  confidence (VObj (finalResult r)) = confidence r.
Proof.
  unfold confidence at 1.
  change (get (VObj (finalResult r)) "confidence_score") with (confidence r).
  destruct (confidence_number r) as (y & E & Hy & _).
  rewrite E. now rewrite Hy.
Qed.





(** A reply with a cooking method, a dish name and one macro. *)
Example steamed_kept :
  let r := VObj [ ("contains_food", VBool true);
                  ("dish_name", VStr "Idli");
                  ("cooking_method", VStr "steamed");
                  ("macros", VObj [("protein", VNum (Fin 4))]) ] in
  lookup (finalResult r) "cooking_method" = VStr "steamed" /\
  lookup (finalResult r) "dish_name" = VStr "Idli" /\
  get (lookup (finalResult r) "macros") "protein" = VNum (Fin 4) /\
  get (lookup (finalResult r) "macros") "carbs" = VUndefined.
Proof. repeat split. Qed.


(** C5: for every validated reply (with [contains_food] the boolean [b]),
    the [confidence_score] of the standardized result is a number [y] in
    [0,1]; when the reply gives a number [x], [y] is [x] clamped into
    [0,1]; when it gives none, [y] is 0.7 if [b] and 0.1 otherwise. *)
Theorem confidence_score_clamped (r : value) (b : bool) :
  get r "contains_food" = VBool b ->
  exists y,
    lookup (finalResult r) "confidence_score" = VNum y /\
    in_unit_interval y /\
    (forall x, get r "confidence_score" = VNum x -> clamped x y) /\
    (typeof (get r "confidence_score") <> TNumber ->
       y = if b then Fin (7 # 10) else Fin (1 # 10)).
Proof.
  intros Hb. rewrite lookup_final_confidence.
  destruct (confidence_number r) as (y & E & _ & Hu).
  exists y. repeat apply conj; try assumption.
  - intros x Hx. unfold confidence in E. rewrite Hx in E.
    injection E as <-. apply clamp_clamped.
  - intros Hn. unfold confidence in E. rewrite Hb in E.
    destruct (get r "confidence_score"); simpl in Hn; try now elim Hn.
    all: destruct b; simpl in E; now injection E as <-.
Qed.

Lemma confidence_score_clamped_witness :
  get overconfident "contains_food" = VBool true /\
  exists y,
    lookup (finalResult overconfident) "confidence_score" = VNum y /\
    in_unit_interval y /\
    (forall x, get overconfident "confidence_score" = VNum x -> clamped x y) /\
    (typeof (get overconfident "confidence_score") <> TNumber ->
       y = Fin (7 # 10)).
Proof.
  split; [reflexivity|].
  apply (confidence_score_clamped overconfident true). reflexivity.
Defined.

(** C7: step 6 is idempotent.  For every reply object [o], standardizing
    the standardized result gives the standardized result again: a default
    never replaces a value that is there. *)
Theorem finalResult_idempotent (o : obj) :
  finalResult (VObj (finalResult (VObj o))) = finalResult (VObj o).
Proof.
  pose proof (confidence_final (VObj o)) as Hc.
  unfold finalResult in *.
  cbn [get lookup String.eqb Ascii.eqb Bool.eqb] in *.
  rewrite Hc, !or_else_idem, !coalesce_idem.
  reflexivity.
Qed.

(** The scenario of the specification: the reply
    [{"contains_food": true, "total_calories": 450}]. *)
Example calories_only_standardized :
  finalResult calories_only =
    [ ("contains_food", VBool true);
      ("dish_name", VStr "Unknown Dish");
      ("cuisine", VStr "Unknown");
      ("serving_size", VStr "N/A");
      ("cooking_method", VUndefined);
      ("ingredients", VArr []);
      ("portion_size", VUndefined);
      ("total_calories", VNum (Fin 450));
      ("macros",
         VObj [ ("protein", VUndefined); ("carbs", VUndefined);
                ("fiber", VUndefined); ("fat", VUndefined);
                ("saturated_fat", VUndefined); ("unsaturated_fat", VUndefined) ]);
      ("portion_comparison", VUndefined);
      ("allergens", VArr []);
      ("confidence_score", VNum (Fin (7 # 10))) ].
Proof. reflexivity. Qed.

Example calories_only_on_the_wire :
  wire_keys (finalResult calories_only) =
    ["contains_food"; "dish_name"; "cuisine"; "serving_size"; "ingredients";
     "total_calories"; "macros"; "allergens"; "confidence_score"].
Proof. reflexivity. Qed.

Example overconfident_clamped :
  lookup (finalResult overconfident) "confidence_score" = VNum (Fin 1).
Proof. reflexivity. Qed.

End Normalization.

(* ================================================================== *)
(** * The analyze pipeline *)
(* ================================================================== *)

Module Pipeline.

Import JS Route Analyze AnalyzeSpec AnalyzeExamples JSFacts Normalization.

Lemma parse_reply_validated (e : Env) (t : string) (r : value) :
  parse_reply e t = inr r -> validated r.
Proof.
  unfold parse_reply, validated.
  destruct (negb (startsWith _ "{") || negb (endsWith _ "}")); [discriminate|].
  destruct (JSON_parse e _) as [err | v]; [discriminate|].
  destruct (typeof (get v "contains_food")) eqn:T; simpl; try discriminate.
  now intros [= <-].
Qed.

(** A reply that leaves step 5 passed validation. *)
Lemma analyse_validated (e : Env) (r : value) :
  analyse e = inr r -> validated r.
Proof.
  unfold analyse.
  destruct (generateContent e) as [err | resp]; [discriminate|].
  destruct (first (candidates resp)) as [c|]; [|discriminate].
  destruct (match finishReason c with Some x => abnormal x | None => false end);
    [discriminate|].
  destruct (candidate_text c) as [t|]; [|discriminate].
  destruct (string_is_empty t); [discriminate|].
  apply parse_reply_validated.
Qed.

Lemma validated_truthy (r : value) : validated r -> truthy r = true.
Proof.
  intro V. destruct (boolean_property_object _ _ V) as [o ->]. reflexivity.
Qed.

Lemma validated_boolean (r : value) :
  validated r -> exists b, get r "contains_food" = VBool b.
Proof.
  unfold validated. destruct (get r "contains_food"); try discriminate. eauto.
Qed.

Ltac run_handler :=
  cbv [POST handler Flow.run Flow.bind Flow.respond Flow.ret Flow.modify
       authenticate parse_body fetch_image call_model save insert_row log].

(** A failure of step 5 ends the request at the [catch] of step 5. *)
Lemma POST_model_failed (e : Env) (s : Session) (url : string) (err : Error)
      (w : World) :
  reaches_model e s url ->
  analyse e = inl err ->
  POST e w = (analysis_failed err,
              mkWorld (food_analyses w) (calls w ++ calls_to_model url)).
Proof.
  intros (Hm & Hs & Hu & image & Hi) Ha.
  run_handler. rewrite Hm, Hs, Hu, Hi, Ha. simpl.
  now rewrite <- !app_assoc.
Qed.

(** A validated reply goes through steps 6 to 8. *)
Lemma POST_analysed (e : Env) (s : Session) (url : string) (r : value)
      (w : World) :
  reaches_model e s url ->
  analyse e = inr r ->
  POST e w =
    (success (finalResult r),
     if truthy (get r "contains_food")
     then mkWorld
            (match insert e with
             | InsertOk =>
                 food_analyses w ++ [mkRecord (user_id s) url (finalResult r)]
             | _ => food_analyses w
             end)
            (calls w ++ calls_to_model url
               ++ [CallInsert (mkRecord (user_id s) url (finalResult r))])
     else mkWorld (food_analyses w) (calls w ++ calls_to_model url)).
Proof.
  intros (Hm & Hs & Hu & image & Hi) Ha.
  pose proof (validated_truthy r (analyse_validated e r Ha)) as Ht.
  run_handler. rewrite Hm, Hs, Hu, Hi, Ha. simpl. rewrite Ht. simpl.
  change (lookup (finalResult r) "contains_food") with (get r "contains_food").
  destruct (truthy (get r "contains_food")); simpl.
  - rewrite <- !app_assoc. simpl. now destruct (insert e).
  - now rewrite <- !app_assoc.
Qed.

Lemma reaches_model_with_insert (e : Env) (o : InsertOutcome) (s : Session)
      (url : string) :
  reaches_model e s url -> reaches_model (with_insert e o) s url.
Proof. intros H. exact H. Qed.

(** What a reply that leaves step 5 went through. *)
Lemma analyse_inversion (e : Env) (r : value) :
  analyse e = inr r ->
  exists resp c t,
    generateContent e = inr resp /\
    first (candidates resp) = Some c /\
    (forall x, finishReason c = Some x -> x = STOP \/ x = MAX_TOKENS) /\
    candidate_text c = Some t /\ t <> EmptyString /\
    startsWith (clean_json t) "{" = true /\
    endsWith (clean_json t) "}" = true /\
    JSON_parse e (clean_json t) = inr r.
Proof.
  unfold analyse.
  destruct (generateContent e) as [err | resp]; [discriminate|].
  destruct (first (candidates resp)) as [c|] eqn:Hc; [|discriminate].
  destruct (finishReason c) as [x|] eqn:Hf.
  all: try (destruct (abnormal x) eqn:Hx; [discriminate|]).
  all: destruct (candidate_text c) as [t|] eqn:Ht; [|discriminate].
  all: destruct (string_is_empty t) eqn:He; [discriminate|].
  all: unfold parse_reply.
  all: destruct (startsWith (clean_json t) "{") eqn:S1; [|discriminate].
  all: destruct (endsWith (clean_json t) "}") eqn:S2; [|discriminate].
  all: simpl.
  all: destruct (JSON_parse e (clean_json t)) as [perr | v] eqn:Hp; [discriminate|].
  all: destruct (negb _); [discriminate|].
  all: intros [= <-]; exists resp, c, t.
  all: repeat apply conj; try reflexivity; try assumption.
  all: try (intros ->; discriminate).
  - intros y Hy. rewrite Hf in Hy. injection Hy as <-.
    destruct x; try discriminate; auto.
  - intros y Hy. rewrite Hf in Hy. discriminate.
Qed.

Lemma alice_reaches_model (reply : Error + GenerateContentResponse)
      (o : InsertOutcome) :
  reaches_model (request_of_alice reply o) alice signed_url.
Proof.
  repeat split; try reflexivity. eexists. reflexivity.
Defined.

(** ** Availability and authentication (steps 0 and 1) *)

(** C9: when the model client is not initialized, every request, whoever
    sends it, gets status 503, and nothing else happens: no collaborator is
    called (the session guard is not consulted) and nothing is stored. *)
Theorem unavailable_before_authentication (e : Env) (w : World) :
  model_initialized e = false ->
  status (fst (POST e w)) = 503 /\
  calls (snd (POST e w)) = calls w /\
  food_analyses (snd (POST e w)) = food_analyses w.
Proof.
  intros H. cbv [POST handler Flow.run Flow.respond]. rewrite H. simpl. auto.
Qed.

Lemma unavailable_before_authentication_witness :
  model_initialized anonymous_unconfigured = false /\
  status (fst (POST anonymous_unconfigured empty_world)) = 503 /\
  calls (snd (POST anonymous_unconfigured empty_world)) = calls empty_world /\
  food_analyses (snd (POST anonymous_unconfigured empty_world))
    = food_analyses empty_world.
Proof.
  split; [reflexivity|].
  apply (unavailable_before_authentication anonymous_unconfigured empty_world).
  reflexivity.
Defined.

(** C3, as stated, fails: a caller without a session, on a server whose
    model client is not initialized, gets 503 and not 401. *)
Lemma unauthenticated_gets_503 :
  getSession anonymous_unconfigured = inr (mkSessionData None None) /\
  status (fst (POST anonymous_unconfigured empty_world)) = 503 /\
  status (fst (POST anonymous_unconfigured empty_world)) <> 401.
Proof. repeat split. discriminate. Qed.

(** C3 (amended): when the model client is initialized, every request
    whose session guard returns no session is rejected with status 401 and
    [contains_food: false] (error "Unauthorized" when the guard reports no
    error of its own), whatever the rest of the environment is; only the
    session guard has been called, and nothing is stored. *)
Theorem unauthenticated_rejected (e : Env) (d : SessionData) (w : World) :
  model_initialized e = true ->
  getSession e = inr d ->
  session d = None ->
  status (fst (POST e w)) = 401 /\
  lookup (body (fst (POST e w))) "contains_food" = VBool false /\
  (sessionError d = None ->
   lookup (body (fst (POST e w))) "error" = VStr "Unauthorized") /\
  calls (snd (POST e w)) = calls w ++ [CallGetSession] /\
  food_analyses (snd (POST e w)) = food_analyses w.
Proof.
  intros Hm Hs Hd. run_handler. rewrite Hm, Hs, Hd. simpl.
  destruct (sessionError d); simpl; repeat split; discriminate.
Qed.

Lemma unauthenticated_rejected_witness :
  model_initialized anonymous_configured = true /\
  getSession anonymous_configured = inr (mkSessionData None None) /\
  session (mkSessionData None None) = None /\
  status (fst (POST anonymous_configured empty_world)) = 401 /\
  lookup (body (fst (POST anonymous_configured empty_world))) "contains_food"
    = VBool false /\
  (sessionError (mkSessionData None None) = None ->
   lookup (body (fst (POST anonymous_configured empty_world))) "error"
     = VStr "Unauthorized") /\
  calls (snd (POST anonymous_configured empty_world))
    = calls empty_world ++ [CallGetSession] /\
  food_analyses (snd (POST anonymous_configured empty_world))
    = food_analyses empty_world.
Proof.
  split; [reflexivity|]. split; [reflexivity|]. split; [reflexivity|].
  apply (unauthenticated_rejected anonymous_configured
           (mkSessionData None None) empty_world); reflexivity.
Defined.

(** ** The model call (step 5) *)

(** C6: when step 5 fails (the model call, the parsing of its reply or the
    validation of [contains_food]), the response has status 500,
    [contains_food: false], [dish_name: "Analysis Failed"] and a non-empty
    [error] string; no insert is issued and the table is unchanged. *)
Theorem model_failure_response (e : Env) (s : Session) (url : string)
        (err : Error) (w : World) :
  reaches_model e s url ->
  analyse e = inl err ->
  status (fst (POST e w)) = 500 /\
  lookup (body (fst (POST e w))) "contains_food" = VBool false /\
  lookup (body (fst (POST e w))) "dish_name" = VStr "Analysis Failed" /\
  (exists msg, lookup (body (fst (POST e w))) "error" = VStr msg
               /\ msg <> EmptyString) /\
  food_analyses (snd (POST e w)) = food_analyses w /\
  calls (snd (POST e w)) = calls w ++ calls_to_model url.
Proof.
  intros Hr Ha. rewrite (POST_model_failed e s url err w Hr Ha). simpl.
  repeat apply conj; try reflexivity.
  eexists. split; [reflexivity | discriminate].
Qed.

Lemma model_failure_response_witness :
  reaches_model throttled alice signed_url /\
  analyse throttled = inl (new_Error "429 Too Many Requests") /\
  status (fst (POST throttled empty_world)) = 500 /\
  lookup (body (fst (POST throttled empty_world))) "contains_food" = VBool false /\
  lookup (body (fst (POST throttled empty_world))) "dish_name"
    = VStr "Analysis Failed" /\
  (exists msg, lookup (body (fst (POST throttled empty_world))) "error" = VStr msg
               /\ msg <> EmptyString) /\
  food_analyses (snd (POST throttled empty_world)) = food_analyses empty_world /\
  calls (snd (POST throttled empty_world))
    = calls empty_world ++ calls_to_model signed_url.
Proof.
  split; [apply alice_reaches_model|]. split; [reflexivity|].
  apply (model_failure_response throttled alice signed_url
           (new_Error "429 Too Many Requests") empty_world).
  - apply alice_reaches_model.
  - reflexivity.
Defined.

(** Every way step 5 can go wrong is a failure of [analyse]. *)
Lemma analyse_fails_on_throw (e : Env) (err : Error) :
  generateContent e = inl err -> analyse e = inl err.
Proof. unfold analyse. now intros ->. Qed.

Lemma parse_reply_fails_on_syntax (e : Env) (t : string) (err : Error) :
  JSON_parse e (clean_json t) = inl err -> exists err', parse_reply e t = inl err'.
Proof.
  unfold parse_reply. intros ->.
  destruct (negb _ || negb _); eauto.
Qed.

Lemma parse_reply_fails_on_validation (e : Env) (t : string) (v : value) :
  JSON_parse e (clean_json t) = inr v ->
  typeof (get v "contains_food") <> TBoolean ->
  exists err', parse_reply e t = inl err'.
Proof.
  unfold parse_reply. intros -> Hv.
  destruct (negb _ || negb _); [eauto|].
  destruct (typeof (get v "contains_food")); simpl; eauto. now elim Hv.
Qed.

(** ** Saving and answering (steps 7 and 8) *)

(** C2, as stated, fails: the validated reply has [contains_food: true],
    the store refuses the insert, and the table holds no record after the
    call. *)
Lemma food_detected_but_not_persisted :
  analyse (food_request store_down) = inr food_reply /\
  get food_reply "contains_food" = VBool true /\
  status (fst (POST (food_request store_down) empty_world)) = 200 /\
  food_analyses (snd (POST (food_request store_down) empty_world)) = [].
Proof. repeat split. Qed.

(** C2 (amended): for a call whose validated reply has
    [contains_food: false], no insert is issued and no record is
    persisted.  For a call whose validated reply has [contains_food: true],
    exactly one insert is issued, of a record whose [confidence_score] lies
    in [0,1]; exactly that record is added to the table when the store
    accepts the insert, and none when the insert fails. *)
Theorem persistence_follows_contains_food (e : Env) (s : Session)
        (url : string) (r : value) (b : bool) (w : World) :
  reaches_model e s url ->
  analyse e = inr r ->
  get r "contains_food" = VBool b ->
  let w' := snd (POST e w) in
  let row := mkRecord (user_id s) url (finalResult r) in
  (b = false ->
     calls w' = calls w ++ calls_to_model url /\
     food_analyses w' = food_analyses w) /\
  (b = true ->
     calls w' = calls w ++ calls_to_model url ++ [CallInsert row] /\
     (exists y, lookup (analysis_result row) "confidence_score" = VNum y
                /\ in_unit_interval y) /\
     (insert e = InsertOk -> food_analyses w' = food_analyses w ++ [row]) /\
     (insert e <> InsertOk -> food_analyses w' = food_analyses w)).
Proof.
  intros Hr Ha Hb w' row. subst w'.
  rewrite (POST_analysed e s url r w Hr Ha), Hb. simpl.
  split; intros ->; simpl.
  - auto.
  - repeat apply conj.
    + reflexivity.
    + destruct (confidence_number r) as (y & E & _ & Hy).
      exists y. split; [exact E | exact Hy].
    + now intros ->.
    + intros Hn. destruct (insert e); [now elim Hn | reflexivity | reflexivity].
Qed.

Lemma persistence_follows_contains_food_witness :
  reaches_model (food_request InsertOk) alice signed_url /\
  analyse (food_request InsertOk) = inr food_reply /\
  get food_reply "contains_food" = VBool true /\
  (true = false ->
     calls (snd (POST (food_request InsertOk) empty_world))
       = calls empty_world ++ calls_to_model signed_url /\
     food_analyses (snd (POST (food_request InsertOk) empty_world))
       = food_analyses empty_world) /\
  (true = true ->
     calls (snd (POST (food_request InsertOk) empty_world))
       = calls empty_world ++ calls_to_model signed_url
           ++ [CallInsert (mkRecord (user_id alice) signed_url
                             (finalResult food_reply))] /\
     (exists y,
        lookup (analysis_result (mkRecord (user_id alice) signed_url
                                   (finalResult food_reply)))
               "confidence_score" = VNum y
        /\ in_unit_interval y) /\
     (insert (food_request InsertOk) = InsertOk ->
        food_analyses (snd (POST (food_request InsertOk) empty_world))
          = food_analyses empty_world
              ++ [mkRecord (user_id alice) signed_url (finalResult food_reply)]) /\
     (insert (food_request InsertOk) <> InsertOk ->
        food_analyses (snd (POST (food_request InsertOk) empty_world))
          = food_analyses empty_world)).
Proof.
  split; [apply alice_reaches_model|]. split; [reflexivity|].
  split; [reflexivity|].
  apply (persistence_follows_contains_food (food_request InsertOk) alice
           signed_url food_reply true empty_world).
  - apply alice_reaches_model.
  - reflexivity.
  - reflexivity.
Defined.

(** C4: once the reply is validated and standardized, the answer of the
    persistence store does not reach the response.  Whatever the insert
    does (success, a reported error, a thrown error), the response is the
    standardized result with status 200. *)
Theorem insert_failure_keeps_response (e : Env) (s : Session) (url : string)
        (r : value) (o : InsertOutcome) (w : World) :
  reaches_model e s url ->
  analyse e = inr r ->
  fst (POST (with_insert e o) w) = mkResponse 200 (finalResult r).
Proof.
  intros Hr Ha.
  now rewrite (POST_analysed (with_insert e o) s url r w
                 (reaches_model_with_insert e o s url Hr) Ha).
Qed.

Lemma insert_failure_keeps_response_witness :
  reaches_model (food_request InsertOk) alice signed_url /\
  analyse (food_request InsertOk) = inr food_reply /\
  fst (POST (with_insert (food_request InsertOk) store_down) empty_world)
    = mkResponse 200 (finalResult food_reply) /\
  fst (POST (with_insert (food_request InsertOk)
               (InsertThrows (new_Error "fetch failed"))) empty_world)
    = mkResponse 200 (finalResult food_reply).
Proof.
  split; [apply alice_reaches_model|]. split; [reflexivity|].
  split.
  - apply (insert_failure_keeps_response (food_request InsertOk) alice
             signed_url food_reply store_down empty_world
             (alice_reaches_model _ _)). reflexivity.
  - apply (insert_failure_keeps_response (food_request InsertOk) alice
             signed_url food_reply (InsertThrows (new_Error "fetch failed"))
             empty_world (alice_reaches_model _ _)). reflexivity.
Defined.

(** The fences around a reply are cleaned off before parsing. *)
Example fenced_reply_cleaned :
  clean_json ("```json" ++ String newline food_text ++ String newline "```")
    = food_text.
Proof. reflexivity. Qed.

(** No food: the response is the standardized result, nothing is saved. *)
Example no_food_not_saved :
  POST (request_of_alice (model_says no_food_text) InsertOk) empty_world
    = (mkResponse 200 (finalResult (VObj [("contains_food", VBool false)])),
       mkWorld [] (calls_to_model signed_url)).
Proof. reflexivity. Qed.

End Pipeline.

(* ================================================================== *)
(** * The upload pipeline *)
(* ================================================================== *)

Module UploadFacts.

Import JS Route Upload UploadSpec UploadExamples.

(** ** The extension of a file name *)

Lemma split_without_separator (sep : ascii) (s : string) :
  contains sep s = false -> split sep s = [s].
Proof.
  induction s as [|a rest IH]; simpl; [reflexivity|].
  intros H. apply orb_false_iff in H as [Ha Hrest].
  now rewrite Ha, (IH Hrest).
Qed.

Lemma split_not_empty (sep : ascii) (s : string) : split sep s <> [].
Proof.
  destruct s as [|a rest]; simpl; [discriminate|].
  destruct (Ascii.eqb a sep); [discriminate|].
  destruct (split sep rest); discriminate.
Qed.

Lemma pop_cons {A : Type} (x : A) (l : list A) : l <> [] -> pop (x :: l) = pop l.
Proof. destruct l; [congruence | reflexivity]. Qed.

(** A string with a separator splits into two segments at least. *)
Lemma split_two (sep : ascii) (pre suf : string) :
  exists seg seg' segs, split sep (pre ++ String sep suf) = seg :: seg' :: segs.
Proof.
  induction pre as [|a pre (seg & seg' & segs & IH)]; simpl.
  - rewrite Ascii.eqb_refl.
    destruct (split sep suf) as [|x xs] eqn:E.
    + now elim (split_not_empty sep suf).
    + eauto.
  - rewrite IH. destruct (Ascii.eqb a sep); eauto.
Qed.

(** The parts before a separator do not reach [pop]. *)
Lemma pop_split_after (sep : ascii) (pre suf : string) :
  pop (split sep (pre ++ String sep suf)) = pop (split sep suf).
Proof.
  induction pre as [|a pre IH]; simpl.
  - rewrite Ascii.eqb_refl. apply pop_cons, split_not_empty.
  - destruct (split_two sep pre suf) as (seg & seg' & segs & E).
    rewrite E in *. rewrite <- IH.
    now destruct (Ascii.eqb a sep).
Qed.

(** The last segment of a name that has a ".". *)
Lemma fileExt_after_last_dot (f : File) (pre ext : string) :
  file_name f = (pre ++ "." ++ ext)%string ->
  contains "." ext = false ->
  fileExt f = Some ext.
Proof.
  intros Hn He. unfold fileExt. rewrite Hn.
  change (pre ++ "." ++ ext)%string with (pre ++ String "." ext)%string.
  rewrite pop_split_after, (split_without_separator _ _ He). reflexivity.
Qed.

(** A name without "." is its own last segment. *)
Lemma fileExt_without_dot (f : File) :
  contains "." (file_name f) = false -> fileExt f = Some (file_name f).
Proof.
  intros H. unfold fileExt. now rewrite (split_without_separator _ _ H).
Qed.

(** ** The handler *)

Ltac run_handler :=
  cbv [POST handler Flow.run Flow.bind Flow.respond Flow.ret Flow.modify
       authenticate read_file validate prepare check_credentials put_object
       sign log].

(** C8: an upload of a signed-in caller whose file is larger than
    5,242,880 bytes is answered with status 413; the object store is not
    called (the only calls are to the session guard and the form parser)
    and holds what it held before. *)
Theorem oversized_upload_rejected (e : Env) (s : Session) (f : File)
        (w : World) :
  getSession e = inr (mkSessionData (Some s) None) ->
  formData_file e = inr (Some f) ->
  (5242880 < file_size f)%N ->
  status (fst (POST e w)) = 413 /\
  objects (snd (POST e w)) = objects w /\
  calls (snd (POST e w)) = calls w ++ [CallGetSession; CallFormData].
Proof.
  intros Hs Hf Hsize.
  assert (Hlt : (maxSizeBytes <? file_size f)%N = true)
    by now apply N.ltb_lt.
  run_handler. rewrite Hs, Hf. simpl. rewrite Hlt. simpl.
  repeat split. now rewrite <- app_assoc.
Qed.

Lemma oversized_upload_rejected_witness :
  getSession (upload_of_bob six_mebibytes) = inr (mkSessionData (Some bob) None) /\
  formData_file (upload_of_bob six_mebibytes) = inr (Some six_mebibytes) /\
  (5242880 < file_size six_mebibytes)%N /\
  status (fst (POST (upload_of_bob six_mebibytes) empty_world)) = 413 /\
  objects (snd (POST (upload_of_bob six_mebibytes) empty_world))
    = objects empty_world /\
  calls (snd (POST (upload_of_bob six_mebibytes) empty_world))
    = calls empty_world ++ [CallGetSession; CallFormData].
Proof.
  split; [reflexivity|]. split; [reflexivity|]. split; [reflexivity|].
  apply (oversized_upload_rejected (upload_of_bob six_mebibytes) bob
           six_mebibytes empty_world); reflexivity.
Defined.

(** C10: for every accepted upload (on a configured server, with readable
    bytes) the object is written under the key [uuid.ext], where [uuid] is
    the value [uuidv4()] returned and [ext] is what follows the last "." of
    the file name the client sent, or the whole name when it has no ".";
    a successful response returns the same key.  The key is a function of
    the UUID and the name alone: the content type plays no part in it. *)
Theorem object_key_from_file_name (e : Env) (s : Session) (f : File)
        (buffer : string) (w : World) :
  accepted e s f ->
  configured e ->
  file_arrayBuffer f = inr buffer ->
  exists key tail,
    calls (snd (POST e w))
      = calls w
        ++ [CallGetSession; CallFormData; CallUuidv4; CallArrayBuffer;
            CallS3Upload (mkUploadParams (bucketName e) key buffer (file_type f))]
        ++ tail /\
    (status (fst (POST e w)) = 200 ->
       lookup (body (fst (POST e w))) "s3_key" = VStr key) /\
    (forall pre ext,
       file_name f = (pre ++ "." ++ ext)%string ->
       contains "." ext = false ->
       key = (uuidv4 e ++ "." ++ ext)%string) /\
    (contains "." (file_name f) = false ->
       key = (uuidv4 e ++ "." ++ file_name f)%string) /\
    (forall f', file_name f' = file_name f -> make_fileName (uuidv4 e) f' = key).
Proof.
  intros (Hs & Hf & Hsize & Htype) (Ha & Hk & Hr) Hb.
  assert (Hle : (maxSizeBytes <? file_size f)%N = false)
    by now apply N.ltb_ge.
  exists (make_fileName (uuidv4 e) f).
  assert (Hcalls : exists tail,
    calls (snd (POST e w))
      = calls w
        ++ [CallGetSession; CallFormData; CallUuidv4; CallArrayBuffer;
            CallS3Upload (mkUploadParams (bucketName e)
                            (make_fileName (uuidv4 e) f) buffer (file_type f))]
        ++ tail /\
    (status (fst (POST e w)) = 200 ->
       lookup (body (fst (POST e w))) "s3_key"
         = VStr (make_fileName (uuidv4 e) f))).
  { run_handler. rewrite Hs, Hf.
    cbn [sessionError session fst snd objects calls].
    rewrite Hle, Htype. cbn [negb fst snd objects calls].
    rewrite Hb, Ha, Hk, Hr. simpl.
    destruct (s3_upload e) as [err|]; simpl.
    - exists []. split; [now rewrite <- !app_assoc | discriminate].
    - destruct (getSignedUrlPromise e) as [err | url]; simpl.
      + eexists. split; [|discriminate].
        rewrite <- !app_assoc. simpl. reflexivity.
      + eexists. split; [|reflexivity].
        rewrite <- !app_assoc. simpl. reflexivity. }
  destruct Hcalls as (tail & Hc & Hresp).
  exists tail. repeat apply conj; try assumption.
  - intros pre ext Hn He. unfold make_fileName.
    now rewrite (fileExt_after_last_dot f pre ext Hn He).
  - intros Hn. unfold make_fileName. now rewrite (fileExt_without_dot f Hn).
  - intros f' Hn. unfold make_fileName, fileExt. now rewrite Hn.
Qed.

Lemma dinner_accepted : accepted (upload_of_bob dinner) bob dinner.
Proof. repeat split. discriminate. Defined.

Lemma bob_configured (f : File) : configured (upload_of_bob f).
Proof. repeat split. Defined.

Lemma object_key_from_file_name_witness :
  accepted (upload_of_bob dinner) bob dinner /\
  configured (upload_of_bob dinner) /\
  file_arrayBuffer dinner = inr "bytes" /\
  exists key tail,
    calls (snd (POST (upload_of_bob dinner) empty_world))
      = calls empty_world
        ++ [CallGetSession; CallFormData; CallUuidv4; CallArrayBuffer;
            CallS3Upload (mkUploadParams (bucketName (upload_of_bob dinner))
                            key "bytes" (file_type dinner))]
        ++ tail /\
    (status (fst (POST (upload_of_bob dinner) empty_world)) = 200 ->
       lookup (body (fst (POST (upload_of_bob dinner) empty_world))) "s3_key"
         = VStr key) /\
    (forall pre ext,
       file_name dinner = (pre ++ "." ++ ext)%string ->
       contains "." ext = false ->
       key = (uuidv4 (upload_of_bob dinner) ++ "." ++ ext)%string) /\
    (contains "." (file_name dinner) = false ->
       key = (uuidv4 (upload_of_bob dinner) ++ "." ++ file_name dinner)%string) /\
    (forall f', file_name f' = file_name dinner ->
       make_fileName (uuidv4 (upload_of_bob dinner)) f' = key).
Proof.
  split; [apply dinner_accepted|]. split; [apply bob_configured|].
  split; [reflexivity|].
  apply (object_key_from_file_name (upload_of_bob dinner) bob dinner "bytes"
           empty_world).
  - apply dinner_accepted.
  - apply bob_configured.
  - reflexivity.
Defined.

(** The key of the example, computed. *)
Example dinner_key :
  make_fileName (uuidv4 (upload_of_bob dinner)) dinner
    = "3f2b8c1e-7d4a-4e5b-9c6d-1a2b3c4d5e6f.JPG".
Proof. reflexivity. Qed.

(** A name without "." is the whole extension. *)
Example no_dot_key :
  make_fileName "u" (mkFile "photo" 100 "image/png" (inr "bytes")) = "u.photo".
Proof. reflexivity. Qed.

End UploadFacts.

(* ================================================================== *)
(** * The analyze route, request by request *)
(* ================================================================== *)

Module AnalyzeCases.

Import JS Route Analyze AnalyzeSpec AnalyzeExamples AnalyzeOutcomes.
Import AnalyzeCasesExamples.
Import JSFacts Normalization Pipeline.

Ltac run_handler :=
  cbv [POST handler Flow.run Flow.bind Flow.respond Flow.ret Flow.modify
       authenticate parse_body fetch_image call_model save insert_row log].

(** Every request ends in one of the outcomes. *)
Lemma POST_outcome (e : Env) (w : World) :
  outcome e w (fst (POST e w)) (snd (POST e w)).
Proof.
  destruct (model_initialized e) eqn:Hm.
  2:{ replace (POST e w) with (unavailable, w).
      - now constructor.
      - cbv [POST handler Flow.run Flow.respond]. now rewrite Hm. }
  destruct (getSession e) as [gerr | d] eqn:Hs.
  { replace (POST e w) with (unhandled gerr, logged w [CallGetSession]).
    - now constructor.
    - run_handler. now rewrite Hm, Hs. }
  destruct (sessionError d) as [details|] eqn:Hd.
  { replace (POST e w)
      with (authentication_failed details, logged w [CallGetSession]).
    - now apply out_auth_failed with d.
    - run_handler. now rewrite Hm, Hs, Hd. }
  destruct (session d) as [s|] eqn:Hss.
  2:{ replace (POST e w) with (unauthorized, logged w [CallGetSession]).
      - now apply out_unauthorized with d.
      - run_handler. now rewrite Hm, Hs, Hd, Hss. }
  assert (Hsigned : signed_in e s).
  { split; [assumption|]. rewrite Hs. destruct d; simpl in *. now subst. }
  destruct Hsigned as [_ Hs'].
  destruct (read_imageUrl e) as [berr | url] eqn:Hu.
  { replace (POST e w)
      with (bad_request ("Invalid request body: " ++ message berr),
            logged w [CallGetSession; CallRequestJson]).
    - apply out_bad_body with s; [now split | assumption].
    - run_handler. rewrite Hm, Hs', Hu. simpl. unfold logged.
      now rewrite <- !app_assoc. }
  destruct (read_image e) as [ferr | image] eqn:Hi.
  { replace (POST e w)
      with (bad_request (fetch_errorMessage ferr),
            logged w [CallGetSession; CallRequestJson; CallFetch url]).
    - apply out_bad_image with s; [now split | assumption | assumption].
    - run_handler. rewrite Hm, Hs', Hu, Hi. simpl. unfold logged.
      now rewrite <- !app_assoc. }
  assert (Hr : reaches_model e s url).
  { repeat split; try assumption. now exists image. }
  destruct (analyse e) as [aerr | r] eqn:Ha.
  { rewrite (POST_model_failed e s url aerr w Hr Ha).
    now apply out_model_failed with s. }
  rewrite (POST_analysed e s url r w Hr Ha).
  destruct (truthy (get r "contains_food")) eqn:Hf; simpl.
  - now apply out_food.
  - now apply out_no_food with s.
Qed.

Lemma message_or_not_empty (err : Error) (dflt : string) :
  dflt <> EmptyString -> message_or err dflt <> EmptyString.
Proof.
  unfold message_or. intros Hd.
  destruct (message err) as [|c rest] eqn:E; simpl; [assumption | discriminate].
Qed.

Lemma fetch_errorMessage_not_empty (err : Error) :
  fetch_errorMessage err <> EmptyString.
Proof.
  unfold fetch_errorMessage.
  destruct (String.eqb (name err) "TimeoutError"); discriminate.
Qed.

(** X1: whatever the environment, the status of the response is one of
    200, 400, 401, 500 and 503. *)
Theorem status_in_range (e : Env) (w : World) :
  In (status (fst (POST e w))) statuses.
Proof.
  generalize (POST_outcome e w).
  generalize (fst (POST e w)) (snd (POST e w)).
  intros r w' H. destruct H; simpl; tauto.
Qed.

(** X2: the response carries an [error] exactly when its status is not
    200; and then the error is a non-empty string and [contains_food] is
    false. *)
Theorem error_iff_failure (e : Env) (w : World) :
  (status (fst (POST e w)) = 200 <->
   lookup (body (fst (POST e w))) "error" = VUndefined) /\
  (status (fst (POST e w)) <> 200 ->
   lookup (body (fst (POST e w))) "contains_food" = VBool false /\
   exists msg, lookup (body (fst (POST e w))) "error" = VStr msg
               /\ msg <> EmptyString).
Proof.
  generalize (POST_outcome e w).
  generalize (fst (POST e w)) (snd (POST e w)).
  intros r w' H.
  destruct H; simpl; (split; [split; intros; try discriminate; try reflexivity|]).
  all: try (intros _; split; [reflexivity|]; eexists; split;
            [reflexivity|]; try discriminate).
  all: try (intros Hn; now elim Hn).
  - now apply message_or_not_empty.
  - apply fetch_errorMessage_not_empty.
Qed.

(** ** Step 2 *)

Lemma read_imageUrl_string (e : Env) (body : value) (u : string) :
  request_json e = inr body ->
  get body "imageUrl" = VStr u ->
  u <> EmptyString ->
  read_imageUrl e = inr u.
Proof.
  intros Hb Hu Hne. unfold read_imageUrl. rewrite Hb.
  destruct body; try discriminate Hu. simpl in *. rewrite Hu. simpl.
  destruct u; [now elim Hne | reflexivity].
Qed.

Lemma read_imageUrl_other (e : Env) (body : value) :
  request_json e = inr body ->
  (forall u, get body "imageUrl" = VStr u -> u = EmptyString) ->
  exists err,
    read_imageUrl e = inl err /\
    (nullish body = false ->
     message err = "imageUrl is missing or not a string in request body.").
Proof.
  intros Hb Hu. unfold read_imageUrl. rewrite Hb.
  destruct (nullish body) eqn:Hn.
  - eexists. split; [reflexivity | discriminate].
  - destruct (get body "imageUrl") as [ | | b | n | u | xs | ps ] eqn:Hg;
      cbn [truthy typeof type_tag_eqb negb]; rewrite ?orb_true_r;
      try (eexists; split; reflexivity).
    rewrite (Hu u eq_refl). simpl. eexists. split; reflexivity.
Qed.

(** X3: a signed-in request whose body has no [imageUrl], or one that is
    not a non-empty string, is answered 400 with an error that starts with
    "Invalid request body: "; the body has been read and nothing else is
    called.  For a body other than null the error names the missing
    [imageUrl]. *)
Theorem missing_imageUrl_rejected (e : Env) (s : Session) (body : value)
        (w : World) :
  signed_in e s ->
  request_json e = inr body ->
  (forall u, get body "imageUrl" = VStr u -> u = EmptyString) ->
  exists msg,
    rejected_with e w 400 ("Invalid request body: " ++ msg)
                  [CallGetSession; CallRequestJson] /\
    (nullish body = false ->
     msg = "imageUrl is missing or not a string in request body.").
Proof.
  intros [Hm Hs] Hb Hu.
  destruct (read_imageUrl_other e body Hb Hu) as (err & He & Hmsg).
  exists (message err). split; [|assumption].
  unfold rejected_with. run_handler. rewrite Hm, Hs, He. simpl.
  repeat split. unfold logged. simpl. now rewrite <- !app_assoc.
Qed.

Lemma alice_signed_in (body : Error + value) (image : Error + FetchResponse)
      (reply : Error + GenerateContentResponse) :
  signed_in (request_with body image reply) alice.
Proof. split; reflexivity. Defined.

Lemma missing_imageUrl_rejected_witness :
  signed_in (request_with (inr misnamed_body) jpeg (model_says food_text)) alice /\
  request_json (request_with (inr misnamed_body) jpeg (model_says food_text))
    = inr misnamed_body /\
  (forall u, get misnamed_body "imageUrl" = VStr u -> u = EmptyString) /\
  exists msg,
    rejected_with (request_with (inr misnamed_body) jpeg (model_says food_text))
                  empty_world 400 ("Invalid request body: " ++ msg)
                  [CallGetSession; CallRequestJson] /\
    (nullish misnamed_body = false ->
     msg = "imageUrl is missing or not a string in request body.").
Proof.
  split; [apply alice_signed_in|]. split; [reflexivity|].
  split; [intros u H; discriminate H|].
  apply (missing_imageUrl_rejected
           (request_with (inr misnamed_body) jpeg (model_says food_text))
           alice misnamed_body empty_world).
  - apply alice_signed_in.
  - reflexivity.
  - intros u H. discriminate H.
Defined.

(** X4: any non-empty string sent as [imageUrl] is fetched as it is: the
    route does not require an S3 or an https URL (that check only
    warns). *)
Theorem imageUrl_fetched_as_sent (e : Env) (s : Session) (body : value)
        (u : string) (w : World) :
  signed_in e s ->
  request_json e = inr body ->
  get body "imageUrl" = VStr u ->
  u <> EmptyString ->
  exists rest,
    calls (snd (POST e w))
      = calls w ++ [CallGetSession; CallRequestJson; CallFetch u] ++ rest.
Proof.
  intros [Hm Hs] Hb Hu Hne.
  pose proof (read_imageUrl_string e body u Hb Hu Hne) as Hr.
  assert (Hsi : signed_in e s) by now split.
  generalize (POST_outcome e w).
  generalize (fst (POST e w)) (snd (POST e w)).
  intros r w' H.
  destruct H as [H0 | err H0 H1 | d details H0 H1 H2 | d H0 H1 H2 H3
                 | s' err H0 H1 | s' url err H0 H1 H2
                 | s' url err H0 H1 | s' url v H0 H1 H2 | s' url v H0 H1 H2].
  - congruence.
  - congruence.
  - rewrite Hs in H1. injection H1 as <-. discriminate.
  - rewrite Hs in H1. injection H1 as <-. discriminate.
  - congruence.
  - assert (url = u) as -> by congruence.
    exists []. reflexivity.
  - destruct H0 as (_ & _ & H0 & _). assert (url = u) as -> by congruence.
    exists [CallGenerateContent]. reflexivity.
  - destruct H0 as (_ & _ & H0 & _). assert (url = u) as -> by congruence.
    exists [CallGenerateContent]. reflexivity.
  - destruct H0 as (_ & _ & H0 & _). assert (url = u) as -> by congruence.
    simpl. eexists. reflexivity.
Qed.

Lemma imageUrl_fetched_as_sent_witness :
  signed_in (request_with (inr plain_http_body) jpeg (model_says food_text)) alice /\
  request_json (request_with (inr plain_http_body) jpeg (model_says food_text))
    = inr plain_http_body /\
  get plain_http_body "imageUrl" = VStr "http://example.org/cat.png" /\
  "http://example.org/cat.png" <> EmptyString /\
  exists rest,
    calls (snd (POST (request_with (inr plain_http_body) jpeg
                        (model_says food_text)) empty_world))
      = calls empty_world
        ++ [CallGetSession; CallRequestJson;
            CallFetch "http://example.org/cat.png"] ++ rest.
Proof.
  split; [apply alice_signed_in|]. split; [reflexivity|].
  split; [reflexivity|]. split; [discriminate|].
  apply (imageUrl_fetched_as_sent
           (request_with (inr plain_http_body) jpeg (model_says food_text))
           alice plain_http_body "http://example.org/cat.png" empty_world).
  - apply alice_signed_in.
  - reflexivity.
  - reflexivity.
  - discriminate.
Defined.

(** ** Step 3 *)

Lemma POST_bad_image (e : Env) (s : Session) (url : string) (err : Error)
      (w : World) :
  signed_in e s ->
  read_imageUrl e = inr url ->
  read_image e = inl err ->
  rejected_with e w 400 (fetch_errorMessage err)
                [CallGetSession; CallRequestJson; CallFetch url].
Proof.
  intros [Hm Hs] Hu Hi. unfold rejected_with. run_handler.
  rewrite Hm, Hs, Hu, Hi. simpl.
  repeat split. unfold logged. simpl. now rewrite <- !app_assoc.
Qed.

(** X5: when the fetch of the image answers with a status outside
    200-299, the request is answered 400 with the error
    "Could not fetch or process image: Failed to fetch image: <status>
    <statusText>"; the model is not called and nothing is stored. *)
Theorem failed_fetch_rejected (e : Env) (s : Session) (url : string)
        (r : FetchResponse) (w : World) :
  signed_in e s ->
  read_imageUrl e = inr url ->
  fetch e = inr r ->
  ok r = false ->
  rejected_with e w 400
    ("Could not fetch or process image: Failed to fetch image: "
       ++ show_nat (fetch_status r) ++ " " ++ statusText r)
    [CallGetSession; CallRequestJson; CallFetch url].
Proof.
  intros Hsi Hu Hf Hok.
  apply (POST_bad_image e s url
           (new_Error ("Failed to fetch image: "
                         ++ show_nat (fetch_status r) ++ " " ++ statusText r))
           w Hsi Hu).
  unfold read_image. now rewrite Hf, Hok.
Qed.

Lemma failed_fetch_rejected_witness :
  signed_in (request_with (inr (VObj [("imageUrl", VStr signed_url)]))
               (inr not_found) (model_says food_text)) alice /\
  read_imageUrl (request_with (inr (VObj [("imageUrl", VStr signed_url)]))
                   (inr not_found) (model_says food_text)) = inr signed_url /\
  fetch (request_with (inr (VObj [("imageUrl", VStr signed_url)]))
           (inr not_found) (model_says food_text)) = inr not_found /\
  ok not_found = false /\
  rejected_with (request_with (inr (VObj [("imageUrl", VStr signed_url)]))
                   (inr not_found) (model_says food_text)) empty_world 400
    "Could not fetch or process image: Failed to fetch image: 404 Not Found"
    [CallGetSession; CallRequestJson; CallFetch signed_url].
Proof.
  split; [apply alice_signed_in|]. split; [reflexivity|].
  split; [reflexivity|]. split; [reflexivity|].
  apply (failed_fetch_rejected
           (request_with (inr (VObj [("imageUrl", VStr signed_url)]))
              (inr not_found) (model_says food_text))
           alice signed_url not_found empty_world).
  - apply alice_signed_in.
  - reflexivity.
  - reflexivity.
  - reflexivity.
Defined.

(** X6: when the fetch succeeds but the content type is missing or does
    not start with "image/", the request is answered 400 with an error
    that shows the content type ("N/A" when there is none); the model is
    not called and nothing is stored. *)
Theorem non_image_rejected (e : Env) (s : Session) (url : string)
        (r : FetchResponse) (w : World) :
  signed_in e s ->
  read_imageUrl e = inr url ->
  fetch e = inr r ->
  ok r = true ->
  (forall ct, content_type r = Some ct -> startsWith ct "image/" = false) ->
  rejected_with e w 400
    ("Could not fetch or process image: "
       ++ "URL did not return a valid image (Content-Type: "
       ++ shown_content_type r ++ ").")
    [CallGetSession; CallRequestJson; CallFetch url].
Proof.
  intros Hsi Hu Hf Hok Hct.
  apply (POST_bad_image e s url
           (new_Error ("URL did not return a valid image (Content-Type: "
                         ++ shown_content_type r ++ ")."))
           w Hsi Hu).
  unfold read_image, shown_content_type. rewrite Hf, Hok. simpl.
  destruct (content_type r) as [ct|]; [|reflexivity].
  rewrite (Hct ct eq_refl). simpl. now rewrite orb_true_r.
Qed.

Lemma non_image_rejected_witness :
  signed_in (request_with (inr (VObj [("imageUrl", VStr signed_url)]))
               (inr html_page) (model_says food_text)) alice /\
  read_imageUrl (request_with (inr (VObj [("imageUrl", VStr signed_url)]))
                   (inr html_page) (model_says food_text)) = inr signed_url /\
  fetch (request_with (inr (VObj [("imageUrl", VStr signed_url)]))
           (inr html_page) (model_says food_text)) = inr html_page /\
  ok html_page = true /\
  (forall ct, content_type html_page = Some ct ->
              startsWith ct "image/" = false) /\
  rejected_with (request_with (inr (VObj [("imageUrl", VStr signed_url)]))
                   (inr html_page) (model_says food_text)) empty_world 400
    ("Could not fetch or process image: "
       ++ "URL did not return a valid image (Content-Type: "
       ++ shown_content_type html_page ++ ").")
    [CallGetSession; CallRequestJson; CallFetch signed_url].
Proof.
  split; [apply alice_signed_in|]. split; [reflexivity|].
  split; [reflexivity|]. split; [reflexivity|].
  split; [intros ct [= <-]; reflexivity|].
  apply (non_image_rejected
           (request_with (inr (VObj [("imageUrl", VStr signed_url)]))
              (inr html_page) (model_says food_text))
           alice signed_url html_page empty_world).
  - apply alice_signed_in.
  - reflexivity.
  - reflexivity.
  - reflexivity.
  - intros ct [= <-]. reflexivity.
Defined.

(** X7: when the fetch itself fails, the request is answered 400; the
    error is "Fetching image timed out after 20 seconds." for an error
    named TimeoutError, whatever its message, and otherwise the error's
    own message after "Could not fetch or process image: ". *)
Theorem fetch_error_rejected (e : Env) (s : Session) (url : string)
        (err : Error) (w : World) :
  signed_in e s ->
  read_imageUrl e = inr url ->
  fetch e = inl err ->
  rejected_with e w 400
    (if String.eqb (name err) "TimeoutError"
     then "Fetching image timed out after 20 seconds."
     else "Could not fetch or process image: " ++ message err)
    [CallGetSession; CallRequestJson; CallFetch url].
Proof.
  intros Hsi Hu Hf.
  assert (Hr : read_image e = inl err) by (unfold read_image; now rewrite Hf).
  pose proof (POST_bad_image e s url err w Hsi Hu Hr) as H.
  unfold fetch_errorMessage in H.
  now destruct (String.eqb (name err) "TimeoutError").
Qed.

Lemma fetch_error_rejected_witness :
  signed_in (request_with (inr (VObj [("imageUrl", VStr signed_url)]))
               (inl timed_out) (model_says food_text)) alice /\
  read_imageUrl (request_with (inr (VObj [("imageUrl", VStr signed_url)]))
                   (inl timed_out) (model_says food_text)) = inr signed_url /\
  fetch (request_with (inr (VObj [("imageUrl", VStr signed_url)]))
           (inl timed_out) (model_says food_text)) = inl timed_out /\
  rejected_with (request_with (inr (VObj [("imageUrl", VStr signed_url)]))
                   (inl timed_out) (model_says food_text)) empty_world 400
    "Fetching image timed out after 20 seconds."
    [CallGetSession; CallRequestJson; CallFetch signed_url].
Proof.
  split; [apply alice_signed_in|]. split; [reflexivity|].
  split; [reflexivity|].
  apply (fetch_error_rejected
           (request_with (inr (VObj [("imageUrl", VStr signed_url)]))
              (inl timed_out) (model_says food_text))
           alice signed_url timed_out empty_world).
  - apply alice_signed_in.
  - reflexivity.
  - reflexivity.
Defined.

(** ** Step 1 *)

(** X8: an error of the session guard wins over a session: when the
    guard reports an error the request is answered 401 with the error
    "Authentication failed" and the guard's message as [details], whether
    or not a session came with it; only the guard has been called. *)
Theorem session_error_first (e : Env) (d : SessionData) (details : string)
        (w : World) :
  model_initialized e = true ->
  getSession e = inr d ->
  sessionError d = Some details ->
  rejected_with e w 401 "Authentication failed" [CallGetSession] /\
  lookup (body (fst (POST e w))) "details" = VStr details.
Proof.
  intros Hm Hs Hd. unfold rejected_with. run_handler.
  rewrite Hm, Hs, Hd. simpl. repeat split.
Qed.

Lemma session_error_first_witness :
  model_initialized expired = true /\
  getSession expired = inr (mkSessionData (Some alice) (Some "JWT expired")) /\
  sessionError (mkSessionData (Some alice) (Some "JWT expired"))
    = Some "JWT expired" /\
  rejected_with expired empty_world 401 "Authentication failed"
                [CallGetSession] /\
  lookup (body (fst (POST expired empty_world))) "details" = VStr "JWT expired".
Proof.
  split; [reflexivity|]. split; [reflexivity|]. split; [reflexivity|].
  apply (session_error_first expired
           (mkSessionData (Some alice) (Some "JWT expired")) "JWT expired"
           empty_world); reflexivity.
Defined.

(** ** Step 5 *)

(** X9: a reply without candidates, or whose first candidate stopped for
    a reason other than STOP and MAX_TOKENS, is rejected whatever text it
    carries: status 500 and the error "Could not process AI response:
    Unknown AI error"; nothing is stored. *)
Theorem abnormal_finish_rejected (e : Env) (s : Session) (url : string)
        (r : GenerateContentResponse) (w : World) :
  reaches_model e s url ->
  generateContent e = inr r ->
  (first (candidates r) = None \/
   exists c reason,
     first (candidates r) = Some c /\ finishReason c = Some reason /\
     reason <> STOP /\ reason <> MAX_TOKENS) ->
  rejected_with e w 500 "Could not process AI response: Unknown AI error"
                (calls_to_model url) /\
  lookup (body (fst (POST e w))) "dish_name" = VStr "Analysis Failed".
Proof.
  intros Hr Hg Hc.
  assert (Ha : analyse e = inl (new_Error EmptyString)).
  { unfold analyse. rewrite Hg.
    destruct Hc as [-> | (c & reason & -> & -> & H1 & H2)]; [reflexivity|].
    destruct reason; try reflexivity; [now elim H1 | now elim H2]. }
  unfold rejected_with. rewrite (POST_model_failed e s url _ w Hr Ha).
  repeat split.
Qed.

Lemma abnormal_finish_rejected_witness :
  reaches_model (request_of_alice blocked InsertOk) alice signed_url /\
  generateContent (request_of_alice blocked InsertOk)
    = inr (mkGenResponse (Some [blocked_candidate])) /\
  (first (candidates (mkGenResponse (Some [blocked_candidate]))) = None \/
   exists c reason,
     first (candidates (mkGenResponse (Some [blocked_candidate]))) = Some c /\
     finishReason c = Some reason /\
     reason <> STOP /\ reason <> MAX_TOKENS) /\
  rejected_with (request_of_alice blocked InsertOk) empty_world 500
                "Could not process AI response: Unknown AI error"
                (calls_to_model signed_url) /\
  lookup (body (fst (POST (request_of_alice blocked InsertOk) empty_world)))
         "dish_name" = VStr "Analysis Failed".
Proof.
  assert (H : first (candidates (mkGenResponse (Some [blocked_candidate]))) = None \/
              exists c reason,
                first (candidates (mkGenResponse (Some [blocked_candidate])))
                  = Some c /\
                finishReason c = Some reason /\
                reason <> STOP /\ reason <> MAX_TOKENS).
  { right. exists blocked_candidate, SAFETY.
    repeat split; discriminate. }
  split; [apply alice_reaches_model|]. split; [reflexivity|].
  split; [exact H|].
  apply (abnormal_finish_rejected (request_of_alice blocked InsertOk) alice
           signed_url (mkGenResponse (Some [blocked_candidate])) empty_world).
  - apply alice_reaches_model.
  - reflexivity.
  - exact H.
Defined.

(** ** Steps 7 and 8 *)

(** X10: a request changes the table by at most one row, added at the
    end.  When it adds a row, the response has status 200, its body is
    the stored [analysis_result] and says [contains_food], the row
    carries the URL of the request body and the id of the session's user,
    and the store accepted the insert. *)
Theorem persisted_only_on_success (e : Env) (w : World) :
  food_analyses (snd (POST e w)) = food_analyses w \/
  exists row s,
    food_analyses (snd (POST e w)) = food_analyses w ++ [row] /\
    status (fst (POST e w)) = 200 /\
    body (fst (POST e w)) = analysis_result row /\
    truthy (lookup (analysis_result row) "contains_food") = true /\
    read_imageUrl e = inr (image_url row) /\
    getSession e = inr (mkSessionData (Some s) None) /\
    rec_user_id row = user_id s /\
    insert e = InsertOk.
Proof.
  generalize (POST_outcome e w).
  generalize (fst (POST e w)) (snd (POST e w)).
  intros r w' H.
  destruct H as [H0 | err H0 H1 | d details H0 H1 H2 | d H0 H1 H2 H3
                 | s' err H0 H1 | s' url err H0 H1 H2
                 | s' url err H0 H1 | s' url v H0 H1 H2 | s' url v H0 H1 H2];
    try (left; reflexivity).
  destruct (insert e) eqn:Hi; try (left; reflexivity).
  right. exists (mkRecord (user_id s') url (finalResult v)), s'.
  destruct H0 as (_ & Hs & Hu & _). simpl. repeat split; assumption.
Qed.

(** X11: the calls of a request are an initial part of the sequence
    session guard, request body, image fetch, model, insert: no call is
    made twice or out of this order, and none is made after one that
    ended the request. *)
Theorem calls_in_order (e : Env) (w : World) :
  exists cs url row,
    calls (snd (POST e w)) = calls w ++ cs /\
    initial_part cs (full_trace url row).
Proof.
  generalize (POST_outcome e w).
  generalize (fst (POST e w)) (snd (POST e w)).
  intros r w' H.
  pose (row0 := mkRecord EmptyString EmptyString []).
  destruct H as [H0 | err H0 H1 | d details H0 H1 H2 | d H0 H1 H2 H3
                 | s' err H0 H1 | s' url err H0 H1 H2
                 | s' url err H0 H1 | s' url v H0 H1 H2 | s' url v H0 H1 H2];
    unfold initial_part, full_trace, calls_to_model; simpl.
  - exists [], EmptyString, row0. rewrite app_nil_r. split; [reflexivity|].
    eexists. reflexivity.
  - exists [CallGetSession], EmptyString, row0. split; [reflexivity|].
    eexists. reflexivity.
  - exists [CallGetSession], EmptyString, row0. split; [reflexivity|].
    eexists. reflexivity.
  - exists [CallGetSession], EmptyString, row0. split; [reflexivity|].
    eexists. reflexivity.
  - exists [CallGetSession; CallRequestJson], EmptyString, row0.
    split; [reflexivity|]. eexists. reflexivity.
  - exists [CallGetSession; CallRequestJson; CallFetch url], url, row0.
    split; [reflexivity|]. eexists. reflexivity.
  - exists (calls_to_model url), url, row0.
    split; [reflexivity|]. eexists. reflexivity.
  - exists (calls_to_model url), url, row0.
    split; [reflexivity|]. eexists. reflexivity.
  - exists (calls_to_model url
              ++ [CallInsert (mkRecord (user_id s') url (finalResult v))]),
           url, (mkRecord (user_id s') url (finalResult v)).
    split; [reflexivity|]. exists []. reflexivity.
Qed.

End AnalyzeCases.

(* ================================================================== *)
(** * The text of the model reply *)
(* ================================================================== *)

Module ReplyText.

Import JS Route Analyze AnalyzeSpec AnalyzeExamples UploadSpec ReplyTextSpec.

Local Open Scope string_scope.

Lemma append_assoc_s (a b c : string) : (a ++ b) ++ c = a ++ (b ++ c).
Proof. induction a as [|x a IH]; simpl; [reflexivity | now rewrite IH]. Qed.

Lemma length_append_s (a b : string) :
  String.length (a ++ b) = (String.length a + String.length b)%nat.
Proof. induction a as [|x a IH]; simpl; [reflexivity | now rewrite IH]. Qed.

Lemma contains_append (c : ascii) (a b : string) :
  contains c (a ++ b) = contains c a || contains c b.
Proof.
  induction a as [|x a IH]; simpl; [reflexivity|].
  now rewrite IH, orb_assoc.
Qed.

Lemma substring_whole (p : string) : String.substring 0 (String.length p) p = p.
Proof. induction p as [|x p IH]; simpl; [reflexivity | now rewrite IH]. Qed.

Lemma substring_head (m q : string) :
  String.substring 0 (String.length m) (m ++ q) = m.
Proof.
  induction m as [|x m IH]; simpl.
  - now destruct q.
  - now rewrite IH.
Qed.

Lemma substring_middle (p m q : string) :
  String.substring (String.length p) (String.length m) (p ++ m ++ q) = m.
Proof.
  induction p as [|x p IH]; simpl; [apply substring_head | exact IH].
Qed.

Lemma startsWith_append (p s : string) : startsWith (p ++ s) p = true.
Proof.
  unfold startsWith. induction p as [|x p IH]; simpl.
  - now destruct s.
  - destruct (ascii_dec x x) as [_ | H]; [exact IH | now elim H].
Qed.

Lemma endsWith_append (s p : string) : endsWith (s ++ p) p = true.
Proof.
  unfold endsWith. rewrite length_append_s.
  replace (String.length s + String.length p - String.length p)%nat
    with (String.length s) by lia.
  replace (String.length p <=? String.length s + String.length p)%nat
    with true by (symmetry; apply Nat.leb_le; lia).
  simpl.
  replace (s ++ p) with (s ++ p ++ EmptyString).
  - rewrite substring_middle. apply String.eqb_refl.
  - f_equal. clear. induction p as [|x p IH]; simpl; [reflexivity | now rewrite IH].
Qed.

(** The first occurrence. *)
Lemma indexOf_first (c : ascii) (a b : string) :
  contains c a = false ->
  indexOf (a ++ String c b) c = Z.of_nat (String.length a).
Proof.
  induction a as [|x a IH]; simpl; intros H.
  - now rewrite Ascii.eqb_refl.
  - apply orb_false_iff in H as [Hx Ha].
    rewrite Hx, (IH Ha).
    destruct (Z.of_nat (String.length a)) eqn:E; try lia.
Qed.

Lemma indexOf_none (c : ascii) (s : string) :
  contains c s = false -> indexOf s c = (-1)%Z.
Proof.
  induction s as [|x s IH]; simpl; intros H; [reflexivity|].
  apply orb_false_iff in H as [Hx Hs]. now rewrite Hx, (IH Hs).
Qed.

Lemma lastIndexOf_none (c : ascii) (s : string) :
  contains c s = false -> lastIndexOf s c = (-1)%Z.
Proof.
  induction s as [|x s IH]; simpl; intros H; [reflexivity|].
  apply orb_false_iff in H as [Hx Hs]. now rewrite (IH Hs), Hx.
Qed.

(** The last occurrence. *)
Lemma lastIndexOf_last (c : ascii) (a b : string) :
  contains c b = false ->
  lastIndexOf (a ++ String c b) c = Z.of_nat (String.length a).
Proof.
  intros Hb. induction a as [|x a IH]; simpl.
  - now rewrite (lastIndexOf_none c b Hb), Ascii.eqb_refl.
  - rewrite IH. destruct (Z.of_nat (String.length a)) eqn:E; try lia.
Qed.

(** No white space character ends with an ASCII byte that is not white
    space itself. *)
Lemma space_char_last (w : string) (c : ascii) :
  is_space c = false ->
  (nat_of_ascii c < 128)%nat ->
  is_space_char (w ++ String c EmptyString) = false.
Proof.
  intros Hc Hn.
  destruct w as [|a [|b [|d w']]]; simpl.
  - exact Hc.
  - unfold is_space2.
    replace (nat_of_ascii c =? 160)%nat with false
      by (symmetry; apply Nat.eqb_neq; lia).
    apply andb_false_r.
  - unfold is_space3.
    replace (nat_of_ascii c =? 128)%nat with false
      by (symmetry; apply Nat.eqb_neq; lia).
    replace (128 <=? nat_of_ascii c)%nat with false
      by (symmetry; apply Nat.leb_gt; lia).
    replace (nat_of_ascii c =? 168)%nat with false
      by (symmetry; apply Nat.eqb_neq; lia).
    replace (nat_of_ascii c =? 169)%nat with false
      by (symmetry; apply Nat.eqb_neq; lia).
    replace (nat_of_ascii c =? 175)%nat with false
      by (symmetry; apply Nat.eqb_neq; lia).
    replace (nat_of_ascii c =? 159)%nat with false
      by (symmetry; apply Nat.eqb_neq; lia).
    replace (nat_of_ascii c =? 191)%nat with false
      by (symmetry; apply Nat.eqb_neq; lia).
    simpl. now rewrite !andb_false_r.
  - now destruct w'.
Qed.

(** [trimEnd] stops at an ASCII character that is no white space. *)
Lemma trimEnd_last (s : string) (c : ascii) :
  is_space c = false ->
  (nat_of_ascii c < 128)%nat ->
  trimEnd (s ++ String c EmptyString) = s ++ String c EmptyString.
Proof.
  intros Hc Hn. induction s as [|x s IH].
  - simpl. now rewrite Hc.
  - change (trimEnd (String x s ++ String c EmptyString))
      with (let t := trimEnd (s ++ String c EmptyString) in
            if is_space_char (String x t) then EmptyString else String x t).
    cbv zeta. rewrite IH.
    change (String x (s ++ String c EmptyString))
      with ((String x s) ++ String c EmptyString).
    now rewrite (space_char_last (String x s) c Hc Hn).
Qed.

Ltac as_numbers H :=
  repeat (rewrite ?orb_true_iff, ?andb_true_iff, ?Nat.eqb_eq, ?Nat.leb_le in H).

Ltac not_space :=
  unfold is_space, is_space2;
  repeat match goal with
         | |- _ /\ _ => split
         | |- (_ || _)%bool = false => apply orb_false_iff; split
         | |- ((9 <=? _)%nat && _)%bool = false =>
             apply andb_false_iff; right; apply Nat.leb_gt; lia
         | |- ((_ =? 194)%nat && _)%bool = false =>
             apply andb_false_iff; left; apply Nat.eqb_neq; lia
         | |- (_ =? _)%nat = false => apply Nat.eqb_neq; lia
         end.

Lemma space2_bytes (c d : ascii) :
  is_space2 c d = true -> is_space c = false /\ is_space d = false.
Proof.
  unfold is_space2. intros H. as_numbers H. destruct H as [Hc Hd]. not_space.
Qed.

Lemma space3_bytes (c d e : ascii) :
  is_space3 c d e = true ->
  is_space c = false /\ is_space2 c d = false /\
  is_space e = false /\ is_space2 d e = false.
Proof.
  unfold is_space3. intros H. as_numbers H.
  destruct H as [[[[H | H] | H] | H] | H];
    repeat match type of H with _ /\ _ => destruct H as [H ?] end;
    not_space.
Qed.

(** White space at the start is dropped, whatever its width. *)
Lemma trimStart_space_char (w s : string) :
  is_space_char w = true -> trimStart (w ++ s) = trimStart s.
Proof.
  destruct w as [|c [|d [|e [|x w']]]]; simpl; try discriminate.
  - now intros ->.
  - intros H. destruct (space2_bytes c d H) as [-> _]. now rewrite H.
  - intros H. destruct (space3_bytes c d e H) as (-> & -> & _). now rewrite H.
Qed.

(** White space at the end is dropped, whatever its width. *)
Lemma trimEnd_space_char (s w : string) :
  is_space_char w = true -> trimEnd (s ++ w) = trimEnd s.
Proof.
  intros H. induction s as [|x s IH].
  - destruct w as [|c [|d [|e [|y w']]]]; simpl in H; try discriminate;
      cbn [append trimEnd is_space_char].
    + now rewrite H.
    + destruct (space2_bytes c d H) as [_ ->]. now rewrite H.
    + destruct (space3_bytes c d e H) as (_ & _ & -> & ->). now rewrite H.
  - cbn [append trimEnd]. now rewrite IH.
Qed.

Lemma trim_leading_space (w s : string) :
  is_space_char w = true -> trim (w ++ s) = trim s.
Proof. intros H. unfold trim. now rewrite (trimStart_space_char w s H). Qed.

(** White space of one, two and three bytes is trimmed on both sides. *)
Example padded_reply_trimmed : trim padded_food_text = food_text.
Proof. reflexivity. Qed.

(** A letter is not cut for ending with the byte of U+00A0. *)
Example letter_kept : trim ("caf" ++ a_grave ++ nbsp) = "caf" ++ a_grave.
Proof. reflexivity. Qed.

(** A padded reply goes through: status 200, and the row is stored. *)
Example padded_reply_accepted :
  POST (request_of_alice (model_says padded_food_text) InsertOk) empty_world
    = (mkResponse 200 (finalResult food_reply),
       mkWorld [mkRecord "user-1" signed_url (finalResult food_reply)]
               (calls_to_model signed_url
                  ++ [CallInsert (mkRecord "user-1" signed_url
                                    (finalResult food_reply))])).
Proof. reflexivity. Qed.

Lemma trim_empty : trim EmptyString = EmptyString.
Proof. reflexivity. Qed.

Lemma fenced_trimmed (lang body : string) :
  trim (fenced lang body) = fenced lang body.
Proof.
  unfold trim.
  assert (Hs : trimStart (fenced lang body) = fenced lang body)
    by (unfold fenced, fence; reflexivity).
  rewrite Hs.
  replace (fenced lang body)
    with ((fence ++ lang ++ nl ++ body ++ nl ++ "``") ++ String "`" EmptyString).
  - apply trimEnd_last; [reflexivity | apply Nat.ltb_lt; reflexivity].
  - unfold fenced. now rewrite !append_assoc_s.
Qed.

(** X12: a reply in a code fence is parsed as what stands between the
    fence lines: for every language tag without a line break and every
    body, cleaning [```tag], a line break, the body, a line break and
    [```] leaves the trimmed body. *)
Theorem fenced_reply_unwrapped (lang body : string) :
  contains newline lang = false ->
  clean_json (fenced lang body) = trim body.
Proof.
  intros Hl. unfold clean_json. rewrite fenced_trimmed.
  assert (H1 : startsWith (fenced lang body) fence = true)
    by apply startsWith_append.
  assert (H2 : endsWith (fenced lang body) fence = true).
  { replace (fenced lang body) with ((fence ++ lang ++ nl ++ body ++ nl) ++ fence).
    - apply endsWith_append.
    - unfold fenced. now rewrite !append_assoc_s. }
  rewrite H1, H2. simpl andb. cbv iota.
  assert (H3 : indexOf (fenced lang body) newline
               = Z.of_nat (String.length (fence ++ lang))).
  { replace (fenced lang body)
      with ((fence ++ lang) ++ String newline (body ++ nl ++ fence)).
    - apply indexOf_first. rewrite contains_append, Hl. reflexivity.
    - unfold fenced. now rewrite !append_assoc_s. }
  assert (H4 : lastIndexOf (fenced lang body) newline
               = Z.of_nat (String.length (fence ++ lang ++ nl ++ body))).
  { replace (fenced lang body)
      with ((fence ++ lang ++ nl ++ body) ++ String newline fence).
    - now apply lastIndexOf_last.
    - unfold fenced. now rewrite !append_assoc_s. }
  rewrite H3, H4. f_equal. unfold JS.substring.
  assert (Hlen : String.length (fenced lang body)
                 = (String.length (fence ++ lang ++ nl) + String.length body
                    + String.length (nl ++ fence))%nat).
  { unfold fenced. rewrite !length_append_s. simpl. lia. }
  assert (Hp : String.length (fence ++ lang ++ nl)
               = (String.length (fence ++ lang) + 1)%nat).
  { rewrite <- append_assoc_s, length_append_s. reflexivity. }
  assert (Hq : String.length (fence ++ lang ++ nl ++ body)
               = (String.length (fence ++ lang ++ nl) + String.length body)%nat).
  { rewrite <- !append_assoc_s, !length_append_s. reflexivity. }
  rewrite Hlen, Hq, Hp.
  set (a := String.length (fence ++ lang)).
  set (b := String.length body).
  set (c := String.length (nl ++ fence)).
  replace (Z.min (Z.max (Z.of_nat a + 1) 0) (Z.of_nat (a + 1 + b + c)))
    with (Z.of_nat (a + 1)) by lia.
  replace (Z.min (Z.max (Z.of_nat (a + 1 + b)) 0) (Z.of_nat (a + 1 + b + c)))
    with (Z.of_nat (a + 1 + b)) by lia.
  replace (Z.min (Z.of_nat (a + 1)) (Z.of_nat (a + 1 + b)))
    with (Z.of_nat (a + 1)) by lia.
  replace (Z.max (Z.of_nat (a + 1)) (Z.of_nat (a + 1 + b))
           - Z.of_nat (a + 1))%Z
    with (Z.of_nat b) by lia.
  rewrite !Nat2Z.id. subst a b. rewrite <- Hp.
  replace (fenced lang body) with ((fence ++ lang ++ nl) ++ body ++ (nl ++ fence)).
  - apply substring_middle.
  - unfold fenced. now rewrite !append_assoc_s.
Qed.

Lemma fenced_reply_unwrapped_witness :
  contains newline "json" = false /\
  clean_json (fenced "json" food_text) = trim food_text.
Proof.
  split; [reflexivity|].
  apply (fenced_reply_unwrapped "json" food_text). reflexivity.
Defined.

(** X13: a reply that opens and closes with a code fence but has no line
    break is not unwrapped: it is cleaned to the empty text and rejected
    with "AI response format error: Expected JSON object structure.",
    whatever [JSON.parse] would make of it. *)
Theorem fenced_one_line_rejected (e : Env) (text : string) :
  startsWith (trim text) fence = true ->
  endsWith (trim text) fence = true ->
  contains newline (trim text) = false ->
  clean_json text = EmptyString /\
  parse_reply e text
    = inl (new_Error "AI response format error: Expected JSON object structure.").
Proof.
  intros H1 H2 H3.
  assert (Hc : clean_json text = EmptyString).
  { unfold clean_json. rewrite H1, H2. simpl andb. cbv iota.
    rewrite (indexOf_none _ _ H3), (lastIndexOf_none _ _ H3).
    unfold JS.substring. simpl Z.add. simpl Z.max.
    replace (Z.min 0 (Z.of_nat (String.length (trim text)))) with 0%Z by lia.
    simpl. now destruct (trim text). }
  split; [exact Hc|].
  unfold parse_reply. rewrite Hc. reflexivity.
Qed.

Lemma fenced_one_line_rejected_witness :
  startsWith (trim one_line) fence = true /\
  endsWith (trim one_line) fence = true /\
  contains newline (trim one_line) = false /\
  clean_json one_line = EmptyString /\
  parse_reply (food_request InsertOk) one_line
    = inl (new_Error "AI response format error: Expected JSON object structure.").
Proof.
  split; [reflexivity|]. split; [reflexivity|]. split; [reflexivity|].
  apply (fenced_one_line_rejected (food_request InsertOk) one_line);
    reflexivity.
Defined.

End ReplyText.

(* ================================================================== *)
(** * The upload route, request by request *)
(* ================================================================== *)

Module UploadCases.

Import JS Route Upload UploadSpec UploadExamples UploadOutcomes UploadFacts.
Import UploadCasesExamples.

Ltac run_upload :=
  cbv [POST handler Flow.run Flow.bind Flow.respond Flow.ret Flow.modify
       authenticate read_file validate prepare check_credentials put_object
       sign log].

(** Every request ends in one of the outcomes. *)
Lemma upload_outcome (e : Env) (w : World) :
  outcome e w (fst (POST e w)) (snd (POST e w)).
Proof.
  destruct (getSession e) as [gerr | d] eqn:Hs.
  { replace (POST e w) with (unhandled gerr, logged w [CallGetSession]).
    - now constructor.
    - run_upload. now rewrite Hs. }
  destruct (sessionError d) as [details|] eqn:Hd.
  { replace (POST e w)
      with (authentication_failed details, logged w [CallGetSession]).
    - now apply out_auth_failed with d.
    - run_upload. now rewrite Hs, Hd. }
  destruct (session d) as [s|] eqn:Hss.
  2:{ replace (POST e w)
        with (failure 401 "Unauthorized", logged w [CallGetSession]).
      - now apply out_unauthorized with d.
      - run_upload. now rewrite Hs, Hd, Hss. }
  assert (Hs' : getSession e = inr (mkSessionData (Some s) None)).
  { rewrite Hs. destruct d; simpl in *. now subst. }
  clear Hs Hd Hss d.
  destruct (formData_file e) as [ferr | [f|]] eqn:Hf.
  { replace (POST e w)
      with (failure 400 ("Failed to parse form data: " ++ message ferr),
            logged w [CallGetSession; CallFormData]).
    - now apply out_form_error with s.
    - run_upload. rewrite Hs', Hf. simpl. unfold logged.
      now rewrite <- !app_assoc. }
  2:{ replace (POST e w)
        with (failure 400 "No file provided",
              logged w [CallGetSession; CallFormData]).
      - now apply out_no_file with s.
      - run_upload. rewrite Hs', Hf. simpl. unfold logged.
        now rewrite <- !app_assoc. }
  destruct (maxSizeBytes <? file_size f)%N eqn:Hsize.
  { replace (POST e w)
      with (too_large, logged w [CallGetSession; CallFormData]).
    - apply out_too_large with s f; [now split | now apply N.ltb_lt].
    - run_upload. rewrite Hs', Hf.
      cbn [sessionError session fst snd objects calls]. rewrite Hsize.
      unfold logged. simpl. now rewrite <- !app_assoc. }
  assert (Hle : (file_size f <= 5242880)%N) by now apply N.ltb_ge.
  destruct (includes allowedMimeTypes (file_type f)) eqn:Htype.
  2:{ replace (POST e w)
        with (unsupported_type, logged w [CallGetSession; CallFormData]).
      - apply out_bad_type with s f; [now split | assumption | assumption].
      - run_upload. rewrite Hs', Hf.
        cbn [sessionError session fst snd objects calls].
        rewrite Hsize, Htype.
        unfold logged. simpl. now rewrite <- !app_assoc. }
  assert (Hacc : accepted e s f) by (repeat split; assumption).
  destruct (file_arrayBuffer f) as [berr | buffer] eqn:Hb.
  { replace (POST e w) with (unhandled berr, logged w calls_to_store).
    - now apply out_unreadable with s f.
    - run_upload. rewrite Hs', Hf.
      cbn [sessionError session fst snd objects calls].
      rewrite Hsize, Htype. cbn [negb fst snd objects calls]. rewrite Hb.
      unfold logged, calls_to_store. simpl. now rewrite <- !app_assoc. }
  destruct (unconfigured e) eqn:Hcfg.
  { replace (POST e w)
      with (failure 500 "Server configuration error: AWS details missing",
            logged w calls_to_store).
    - now apply out_unconfigured with s f buffer.
    - run_upload. rewrite Hs', Hf.
      cbn [sessionError session fst snd objects calls].
      rewrite Hsize, Htype. cbn [negb fst snd objects calls]. rewrite Hb.
      unfold unconfigured in Hcfg. rewrite Hcfg.
      unfold logged, calls_to_store. simpl. now rewrite <- !app_assoc. }
  assert (Hrun : POST e w =
    match s3_upload e with
    | Some err =>
        (failure 500 ("S3 upload failed: " ++ message err),
         logged w (calls_to_store ++ [CallS3Upload (object_of e f buffer)]))
    | None =>
        (match getSignedUrlPromise e with
         | inl err => failure 500 ("Failed to create access URL after upload: "
                                   ++ message err)
         | inr url => success url (make_fileName (uuidv4 e) f)
         end,
         mkWorld (objects w ++ [object_of e f buffer])
                 (calls w ++ calls_to_store
                    ++ [CallS3Upload (object_of e f buffer); signing_of e f]))
    end).
  { run_upload. rewrite Hs', Hf.
    cbn [sessionError session fst snd objects calls].
    rewrite Hsize, Htype. cbn [negb fst snd objects calls]. rewrite Hb.
    unfold unconfigured in Hcfg. rewrite Hcfg.
    unfold logged, calls_to_store, object_of, signing_of. simpl.
    destruct (s3_upload e); simpl.
    - now rewrite <- !app_assoc.
    - destruct (getSignedUrlPromise e); simpl; now rewrite <- !app_assoc. }
  rewrite Hrun.
  destruct (s3_upload e) as [uerr|] eqn:Hup.
  - now apply out_upload_failed with s.
  - destruct (getSignedUrlPromise e) as [serr | url] eqn:Hsign; simpl.
    + now apply out_sign_failed with s.
    + now apply out_stored with s.
Qed.

(** X14: whatever the environment, the status of the response is one of
    200, 400, 401, 413, 415 and 500. *)
Theorem upload_status_in_range (e : Env) (w : World) :
  In (status (fst (POST e w))) statuses.
Proof.
  generalize (upload_outcome e w).
  generalize (fst (POST e w)) (snd (POST e w)).
  intros r w' H. destruct H; simpl; tauto.
Qed.

(** X15: [success] is true exactly when the status is 200.  A response
    with another status carries a non-empty [error] string; a response
    with status 200 carries the signed [url] and the [s3_key]. *)
Theorem success_iff_ok (e : Env) (w : World) :
  (status (fst (POST e w)) = 200 <->
   lookup (body (fst (POST e w))) "success" = VBool true) /\
  (status (fst (POST e w)) <> 200 ->
   lookup (body (fst (POST e w))) "success" = VBool false /\
   exists msg, lookup (body (fst (POST e w))) "error" = VStr msg
               /\ msg <> EmptyString) /\
  (status (fst (POST e w)) = 200 ->
   exists url key,
     lookup (body (fst (POST e w))) "url" = VStr url /\
     lookup (body (fst (POST e w))) "s3_key" = VStr key).
Proof.
  generalize (upload_outcome e w).
  generalize (fst (POST e w)) (snd (POST e w)).
  intros r w' H.
  destruct H; simpl; repeat apply conj;
    try (split; intros; try discriminate; reflexivity);
    try (intros; discriminate);
    try (intros Hn; now elim Hn);
    try (intros _; split; [reflexivity|]; eexists; split;
         [reflexivity|]; try discriminate).
  - now apply AnalyzeCases.message_or_not_empty.
  - now apply AnalyzeCases.message_or_not_empty.
  - intros _. eauto.
Qed.

(** X16: an upload without a session is answered 401 with
    [success: false]; only the session guard has been called and the
    object store holds what it held. *)
Theorem unauthenticated_upload_rejected (e : Env) (d : SessionData)
        (w : World) :
  getSession e = inr d ->
  session d = None ->
  status (fst (POST e w)) = 401 /\
  lookup (body (fst (POST e w))) "success" = VBool false /\
  snd (POST e w) = logged w [CallGetSession].
Proof.
  intros Hs Hd. run_upload. rewrite Hs, Hd.
  destruct (sessionError d); simpl; repeat split.
Qed.

Lemma unauthenticated_upload_rejected_witness :
  getSession (server nobody (inr (Some dinner)) (Some "eu-west-1") None
                (inr presigned)) = inr (mkSessionData None None) /\
  session (mkSessionData None None) = None /\
  status (fst (POST (server nobody (inr (Some dinner)) (Some "eu-west-1") None
                       (inr presigned)) empty_world)) = 401 /\
  lookup (body (fst (POST (server nobody (inr (Some dinner)) (Some "eu-west-1")
                             None (inr presigned)) empty_world)))
         "success" = VBool false /\
  snd (POST (server nobody (inr (Some dinner)) (Some "eu-west-1") None
               (inr presigned)) empty_world)
    = logged empty_world [CallGetSession].
Proof.
  split; [reflexivity|]. split; [reflexivity|].
  apply (unauthenticated_upload_rejected
           (server nobody (inr (Some dinner)) (Some "eu-west-1") None
              (inr presigned))
           (mkSessionData None None) empty_world); reflexivity.
Defined.

(** X17: a signed-in upload without a [file] field is answered 400 "No
    file provided", and one whose form cannot be parsed 400 "Failed to
    parse form data: <cause>"; in both cases nothing is validated or
    written. *)
Theorem missing_file_rejected (e : Env) (s : Session) (w : World) :
  getSession e = inr (mkSessionData (Some s) None) ->
  (forall f, formData_file e <> inr (Some f)) ->
  exists msg,
    rejected_with e w 400 msg [CallGetSession; CallFormData] /\
    (formData_file e = inr None -> msg = "No file provided") /\
    (forall err, formData_file e = inl err ->
                 msg = ("Failed to parse form data: " ++ message err)%string).
Proof.
  intros Hs Hf. unfold rejected_with. run_upload. rewrite Hs.
  destruct (formData_file e) as [err | [f|]] eqn:E.
  - eexists. split; [|split].
    + simpl. repeat split. unfold logged. simpl. now rewrite <- !app_assoc.
    + discriminate.
    + intros err' [= <-]. reflexivity.
  - now elim (Hf f).
  - eexists. split; [|split].
    + simpl. repeat split. unfold logged. simpl. now rewrite <- !app_assoc.
    + reflexivity.
    + discriminate.
Qed.

Lemma missing_file_rejected_witness :
  getSession (server bob_signed_in (inr None) (Some "eu-west-1") None
                (inr presigned)) = inr (mkSessionData (Some bob) None) /\
  (forall f, formData_file (server bob_signed_in (inr None) (Some "eu-west-1")
                              None (inr presigned)) <> inr (Some f)) /\
  exists msg,
    rejected_with (server bob_signed_in (inr None) (Some "eu-west-1") None
                     (inr presigned)) empty_world 400 msg
                  [CallGetSession; CallFormData] /\
    (formData_file (server bob_signed_in (inr None) (Some "eu-west-1") None
                      (inr presigned)) = inr None ->
     msg = "No file provided") /\
    (forall err,
       formData_file (server bob_signed_in (inr None) (Some "eu-west-1") None
                        (inr presigned)) = inl err ->
       msg = ("Failed to parse form data: " ++ message err)%string).
Proof.
  split; [reflexivity|]. split; [intros f H; discriminate H|].
  apply (missing_file_rejected
           (server bob_signed_in (inr None) (Some "eu-west-1") None
              (inr presigned)) bob empty_world).
  - reflexivity.
  - intros f H. discriminate H.
Defined.

(** X18: a signed-in upload of a file within the size limit whose
    declared type is not one of image/jpeg, image/png, image/webp and
    image/gif is answered 415; the object store is not called and holds
    what it held. *)
Theorem unsupported_type_rejected (e : Env) (s : Session) (f : File)
        (w : World) :
  received e s f ->
  (file_size f <= 5242880)%N ->
  includes allowedMimeTypes (file_type f) = false ->
  rejected_with e w 415
    "Invalid file type. Only image/jpeg, image/png, image/webp, image/gif allowed."
    [CallGetSession; CallFormData].
Proof.
  intros [Hs Hf] Hsize Htype.
  assert (Hle : (maxSizeBytes <? file_size f)%N = false) by now apply N.ltb_ge.
  unfold rejected_with. run_upload. rewrite Hs, Hf.
  cbn [sessionError session fst snd objects calls]. rewrite Hle, Htype.
  simpl. repeat split. unfold logged. simpl. now rewrite <- !app_assoc.
Qed.

Lemma bob_received (f : File) (region : option string) (put : option Error)
      (signed : Error + string) :
  received (server bob_signed_in (inr (Some f)) region put signed) bob f.
Proof. split; reflexivity. Defined.

Lemma unsupported_type_rejected_witness :
  received (server bob_signed_in (inr (Some bitmap)) (Some "eu-west-1") None
              (inr presigned)) bob bitmap /\
  (file_size bitmap <= 5242880)%N /\
  includes allowedMimeTypes (file_type bitmap) = false /\
  rejected_with (server bob_signed_in (inr (Some bitmap)) (Some "eu-west-1")
                   None (inr presigned)) empty_world 415
    "Invalid file type. Only image/jpeg, image/png, image/webp, image/gif allowed."
    [CallGetSession; CallFormData].
Proof.
  split; [apply bob_received|]. split; [discriminate|]. split; [reflexivity|].
  apply (unsupported_type_rejected
           (server bob_signed_in (inr (Some bitmap)) (Some "eu-west-1") None
              (inr presigned)) bob bitmap empty_world).
  - apply bob_received.
  - discriminate.
  - reflexivity.
Defined.

(** ** The object store *)

Lemma POST_before_store (e : Env) (s : Session) (f : File) (buffer : string)
      (w : World) :
  accepted e s f ->
  file_arrayBuffer f = inr buffer ->
  POST e w =
    if unconfigured e
    then (failure 500 "Server configuration error: AWS details missing",
          logged w calls_to_store)
    else
      match s3_upload e with
      | Some err =>
          (failure 500 ("S3 upload failed: " ++ message err),
           logged w (calls_to_store ++ [CallS3Upload (object_of e f buffer)]))
      | None =>
          (match getSignedUrlPromise e with
           | inl err => failure 500 ("Failed to create access URL after upload: "
                                     ++ message err)
           | inr url => success url (make_fileName (uuidv4 e) f)
           end,
           mkWorld (objects w ++ [object_of e f buffer])
                   (calls w ++ calls_to_store
                      ++ [CallS3Upload (object_of e f buffer); signing_of e f]))
      end.
Proof.
  intros (Hs & Hf & Hsize & Htype) Hb.
  assert (Hle : (maxSizeBytes <? file_size f)%N = false) by now apply N.ltb_ge.
  run_upload. rewrite Hs, Hf.
  cbn [sessionError session fst snd objects calls].
  rewrite Hle, Htype. cbn [negb fst snd objects calls]. rewrite Hb.
  unfold unconfigured, logged, calls_to_store, object_of, signing_of.
  destruct (unset (AWS_ACCESS_KEY_ID e) || unset (AWS_SECRET_ACCESS_KEY e)
            || unset (AWS_REGION e)); simpl.
  - now rewrite <- !app_assoc.
  - destruct (s3_upload e); simpl.
    + now rewrite <- !app_assoc.
    + destruct (getSignedUrlPromise e); simpl; now rewrite <- !app_assoc.
Qed.

(** X19: when one of AWS_ACCESS_KEY_ID, AWS_SECRET_ACCESS_KEY and
    AWS_REGION is unset or empty, an upload that passed validation is
    answered 500 "Server configuration error: AWS details missing"; the
    key has been drawn and the bytes read, but the object store is not
    called. *)
Theorem unconfigured_rejected (e : Env) (s : Session) (f : File)
        (buffer : string) (w : World) :
  accepted e s f ->
  file_arrayBuffer f = inr buffer ->
  unconfigured e = true ->
  rejected_with e w 500 "Server configuration error: AWS details missing"
                calls_to_store.
Proof.
  intros Ha Hb Hc. unfold rejected_with.
  rewrite (POST_before_store e s f buffer w Ha Hb), Hc. repeat split.
Qed.

Lemma bob_accepted (region : option string) (put : option Error)
      (signed : Error + string) :
  accepted (server bob_signed_in (inr (Some five_mebibytes)) region put signed)
           bob five_mebibytes.
Proof. repeat split. discriminate. Defined.

Lemma unconfigured_rejected_witness :
  accepted (server bob_signed_in (inr (Some five_mebibytes)) None None
              (inr presigned)) bob five_mebibytes /\
  file_arrayBuffer five_mebibytes = inr "bytes" /\
  unconfigured (server bob_signed_in (inr (Some five_mebibytes)) None None
                  (inr presigned)) = true /\
  rejected_with (server bob_signed_in (inr (Some five_mebibytes)) None None
                   (inr presigned)) empty_world 500
                "Server configuration error: AWS details missing"
                calls_to_store.
Proof.
  split; [apply bob_accepted|]. split; [reflexivity|]. split; [reflexivity|].
  apply (unconfigured_rejected
           (server bob_signed_in (inr (Some five_mebibytes)) None None
              (inr presigned)) bob five_mebibytes "bytes" empty_world).
  - apply bob_accepted.
  - reflexivity.
  - reflexivity.
Defined.

(** X20: when the write to the object store fails, the upload is answered
    500 "S3 upload failed: <cause>"; the store holds what it held and no
    URL is signed. *)
Theorem failed_write_rejected (e : Env) (s : Session) (f : File)
        (buffer : string) (err : Error) (w : World) :
  accepted e s f ->
  file_arrayBuffer f = inr buffer ->
  unconfigured e = false ->
  s3_upload e = Some err ->
  rejected_with e w 500 ("S3 upload failed: " ++ message err)
                (calls_to_store ++ [CallS3Upload (object_of e f buffer)]).
Proof.
  intros Ha Hb Hc Hu. unfold rejected_with.
  rewrite (POST_before_store e s f buffer w Ha Hb), Hc, Hu. repeat split.
Qed.

Lemma failed_write_rejected_witness :
  accepted (server bob_signed_in (inr (Some five_mebibytes)) (Some "eu-west-1")
              (Some access_denied) (inr presigned)) bob five_mebibytes /\
  file_arrayBuffer five_mebibytes = inr "bytes" /\
  unconfigured (server bob_signed_in (inr (Some five_mebibytes))
                  (Some "eu-west-1") (Some access_denied) (inr presigned))
    = false /\
  s3_upload (server bob_signed_in (inr (Some five_mebibytes)) (Some "eu-west-1")
               (Some access_denied) (inr presigned)) = Some access_denied /\
  rejected_with (server bob_signed_in (inr (Some five_mebibytes))
                   (Some "eu-west-1") (Some access_denied) (inr presigned))
                empty_world 500 ("S3 upload failed: " ++ message access_denied)
                (calls_to_store
                   ++ [CallS3Upload
                         (object_of (server bob_signed_in
                                       (inr (Some five_mebibytes))
                                       (Some "eu-west-1") (Some access_denied)
                                       (inr presigned))
                                    five_mebibytes "bytes")]).
Proof.
  split; [apply bob_accepted|]. split; [reflexivity|]. split; [reflexivity|].
  split; [reflexivity|].
  apply (failed_write_rejected
           (server bob_signed_in (inr (Some five_mebibytes)) (Some "eu-west-1")
              (Some access_denied) (inr presigned))
           bob five_mebibytes "bytes" access_denied empty_world).
  - apply bob_accepted.
  - reflexivity.
  - reflexivity.
  - reflexivity.
Defined.

(** X21: when the write succeeds and the signing fails, the upload is
    answered 500 "Failed to create access URL after upload: <cause>", and
    the object stays in the store: the response reports a failure for a
    file that has been written. *)
Theorem failed_signing_leaves_object (e : Env) (s : Session) (f : File)
        (buffer : string) (err : Error) (w : World) :
  accepted e s f ->
  file_arrayBuffer f = inr buffer ->
  unconfigured e = false ->
  s3_upload e = None ->
  getSignedUrlPromise e = inl err ->
  status (fst (POST e w)) = 500 /\
  lookup (body (fst (POST e w))) "success" = VBool false /\
  lookup (body (fst (POST e w))) "error"
    = VStr ("Failed to create access URL after upload: " ++ message err) /\
  objects (snd (POST e w)) = objects w ++ [object_of e f buffer].
Proof.
  intros Ha Hb Hc Hu Hg.
  rewrite (POST_before_store e s f buffer w Ha Hb), Hc, Hu, Hg. repeat split.
Qed.

Lemma failed_signing_leaves_object_witness :
  accepted (server bob_signed_in (inr (Some five_mebibytes)) (Some "eu-west-1")
              None (inl access_denied)) bob five_mebibytes /\
  file_arrayBuffer five_mebibytes = inr "bytes" /\
  unconfigured (server bob_signed_in (inr (Some five_mebibytes))
                  (Some "eu-west-1") None (inl access_denied)) = false /\
  s3_upload (server bob_signed_in (inr (Some five_mebibytes)) (Some "eu-west-1")
               None (inl access_denied)) = None /\
  getSignedUrlPromise (server bob_signed_in (inr (Some five_mebibytes))
                         (Some "eu-west-1") None (inl access_denied))
    = inl access_denied /\
  status (fst (POST (server bob_signed_in (inr (Some five_mebibytes))
                       (Some "eu-west-1") None (inl access_denied))
                    empty_world)) = 500 /\
  lookup (body (fst (POST (server bob_signed_in (inr (Some five_mebibytes))
                             (Some "eu-west-1") None (inl access_denied))
                          empty_world))) "success" = VBool false /\
  lookup (body (fst (POST (server bob_signed_in (inr (Some five_mebibytes))
                             (Some "eu-west-1") None (inl access_denied))
                          empty_world))) "error"
    = VStr ("Failed to create access URL after upload: "
              ++ message access_denied) /\
  objects (snd (POST (server bob_signed_in (inr (Some five_mebibytes))
                        (Some "eu-west-1") None (inl access_denied))
                     empty_world))
    = objects empty_world
      ++ [object_of (server bob_signed_in (inr (Some five_mebibytes))
                       (Some "eu-west-1") None (inl access_denied))
                    five_mebibytes "bytes"].
Proof.
  split; [apply bob_accepted|]. split; [reflexivity|]. split; [reflexivity|].
  split; [reflexivity|]. split; [reflexivity|].
  apply (failed_signing_leaves_object
           (server bob_signed_in (inr (Some five_mebibytes)) (Some "eu-west-1")
              None (inl access_denied))
           bob five_mebibytes "bytes" access_denied empty_world).
  - apply bob_accepted.
  - reflexivity.
  - reflexivity.
  - reflexivity.
  - reflexivity.
Defined.

(** X22: an accepted upload on a configured server whose object store
    works is answered 200 with the signed URL and the key.  Exactly one
    object is written, in the configured bucket, under that key, with the
    bytes and the declared content type of the file; the URL is signed for
    the same bucket and key with an expiry of 3600 seconds. *)
Theorem stored_and_signed (e : Env) (s : Session) (f : File)
        (buffer url : string) (w : World) :
  accepted e s f ->
  file_arrayBuffer f = inr buffer ->
  unconfigured e = false ->
  s3_upload e = None ->
  getSignedUrlPromise e = inr url ->
  exists key,
    status (fst (POST e w)) = 200 /\
    lookup (body (fst (POST e w))) "url" = VStr url /\
    lookup (body (fst (POST e w))) "s3_key" = VStr key /\
    objects (snd (POST e w))
      = objects w ++ [mkUploadParams (bucketName e) key buffer (file_type f)] /\
    calls (snd (POST e w))
      = calls w ++ calls_to_store
        ++ [CallS3Upload (mkUploadParams (bucketName e) key buffer (file_type f));
            CallGetSignedUrl (bucketName e) key 3600].
Proof.
  intros Ha Hb Hc Hu Hg. exists (make_fileName (uuidv4 e) f).
  rewrite (POST_before_store e s f buffer w Ha Hb), Hc, Hu, Hg. repeat split.
Qed.

Lemma stored_and_signed_witness :
  accepted (server bob_signed_in (inr (Some five_mebibytes)) (Some "eu-west-1")
              None (inr presigned)) bob five_mebibytes /\
  file_arrayBuffer five_mebibytes = inr "bytes" /\
  unconfigured (server bob_signed_in (inr (Some five_mebibytes))
                  (Some "eu-west-1") None (inr presigned)) = false /\
  s3_upload (server bob_signed_in (inr (Some five_mebibytes)) (Some "eu-west-1")
               None (inr presigned)) = None /\
  getSignedUrlPromise (server bob_signed_in (inr (Some five_mebibytes))
                         (Some "eu-west-1") None (inr presigned))
    = inr presigned /\
  exists key,
    status (fst (POST (server bob_signed_in (inr (Some five_mebibytes))
                         (Some "eu-west-1") None (inr presigned))
                      empty_world)) = 200 /\
    lookup (body (fst (POST (server bob_signed_in (inr (Some five_mebibytes))
                               (Some "eu-west-1") None (inr presigned))
                            empty_world))) "url" = VStr presigned /\
    lookup (body (fst (POST (server bob_signed_in (inr (Some five_mebibytes))
                               (Some "eu-west-1") None (inr presigned))
                            empty_world))) "s3_key" = VStr key /\
    objects (snd (POST (server bob_signed_in (inr (Some five_mebibytes))
                          (Some "eu-west-1") None (inr presigned))
                       empty_world))
      = objects empty_world
        ++ [mkUploadParams "food-analyses-images" key "bytes" "image/webp"] /\
    calls (snd (POST (server bob_signed_in (inr (Some five_mebibytes))
                        (Some "eu-west-1") None (inr presigned))
                     empty_world))
      = calls empty_world ++ calls_to_store
        ++ [CallS3Upload
              (mkUploadParams "food-analyses-images" key "bytes" "image/webp");
            CallGetSignedUrl "food-analyses-images" key 3600].
Proof.
  split; [apply bob_accepted|]. split; [reflexivity|]. split; [reflexivity|].
  split; [reflexivity|]. split; [reflexivity|].
  apply (stored_and_signed
           (server bob_signed_in (inr (Some five_mebibytes)) (Some "eu-west-1")
              None (inr presigned))
           bob five_mebibytes "bytes" presigned empty_world).
  - apply bob_accepted.
  - reflexivity.
  - reflexivity.
  - reflexivity.
  - reflexivity.
Defined.

Lemma includes_In (a : list string) (x : string) :
  includes a x = true -> In x a.
Proof.
  unfold includes. intros H. apply existsb_exists in H as (y & Hy & E).
  apply String.eqb_eq in E. now subst.
Qed.

(** X23: a request writes at most one object, at the end of the store,
    and only for a file that passed every check: a signed-in caller, a
    size of at most 5,242,880 bytes, a content type among the four allowed
    ones, readable bytes, and a configured server. *)
Theorem writes_only_accepted_files (e : Env) (w : World) :
  objects (snd (POST e w)) = objects w \/
  exists s f buffer,
    objects (snd (POST e w)) = objects w ++ [object_of e f buffer] /\
    accepted e s f /\
    file_arrayBuffer f = inr buffer /\
    unconfigured e = false /\
    (file_size f <= 5242880)%N /\
    In (ContentType (object_of e f buffer)) allowedMimeTypes.
Proof.
  generalize (upload_outcome e w).
  generalize (fst (POST e w)) (snd (POST e w)).
  intros r w' H.
  destruct H; try (left; reflexivity); right; exists s, f, buffer; simpl.
  all: pose proof H as (_ & _ & Hsz & Hty).
  all: split; [reflexivity|]; split; [exact H|]; split; [assumption|].
  all: split; [assumption|]; split; [assumption|].
  all: exact (includes_In allowedMimeTypes (file_type f) Hty).
Qed.

(** ** The extension *)

Lemma pop_split_clean (sep : ascii) (name : string) :
  exists ext, pop (split sep name) = Some ext /\ contains sep ext = false.
Proof.
  induction name as [|a name (ext & Hp & Hc)]; simpl.
  - exists EmptyString. split; reflexivity.
  - destruct (Ascii.eqb a sep) eqn:Ha.
    + exists ext. split; [|assumption].
      rewrite pop_cons by apply split_not_empty. exact Hp.
    + destruct (split sep name) as [|seg segs] eqn:E.
      * now elim (split_not_empty sep name).
      * destruct segs as [|seg' segs'].
        -- injection Hp as <-. exists (String a seg). split; [reflexivity|].
           simpl. now rewrite Ha, Hc.
        -- exists ext. split; [exact Hp | assumption].
Qed.

(** X24: whatever the file name, [fileExt] is defined and has no "." in
    it, so the key is the UUID, a ".", and a dot-free rest: the key never
    reads "undefined" for a missing extension, and its last "." is the one
    the route wrote. *)
Theorem extension_without_dot (uuid : string) (f : File) :
  exists ext,
    fileExt f = Some ext /\
    contains "." ext = false /\
    make_fileName uuid f = (uuid ++ "." ++ ext)%string.
Proof.
  destruct (pop_split_clean "." (file_name f)) as (ext & Hp & Hc).
  exists ext. unfold make_fileName, fileExt. rewrite Hp. repeat split.
  exact Hc.
Qed.

End UploadCases.

(* ================================================================== *)
(** * The callback route *)
(* ================================================================== *)

Module CallbackFacts.

Import JS Route Callback ClientExamples.

Local Open Scope string_scope.

Lemma append_inv_head (a x y : string) : a ++ x = a ++ y -> x = y.
Proof.
  induction a as [|c a IH]; simpl; intros H; [exact H|].
  injection H as H. now apply IH.
Qed.

(** X25: the callback redirects to [<origin>/dashboard] exactly when the
    URL carries a non-empty code and the exchange of that code for a
    session succeeds; without a code (or with an empty one) the exchange
    is not attempted at all. *)
Theorem dashboard_iff_exchanged (e : Env) (u : RequestUrl) :
  request_url e = inr u ->
  nextUrl_origin e = origin u ->
  (fst (GET e) = origin u ++ "/dashboard" <->
   exists c, code u = Some c /\ c <> EmptyString
             /\ exchangeCodeForSession e = inr None) /\
  (code u = None \/ code u = Some EmptyString -> snd (GET e) = []).
Proof.
  intros Hu Ho. unfold GET, server_error. rewrite Hu, Ho. split.
  - split.
    + destruct (code u) as [c|] eqn:Hc.
      * destruct c as [|a c]; simpl.
        -- intros H. apply append_inv_head in H. discriminate H.
        -- destruct (exchangeCodeForSession e) as [err | [msg|]]; simpl;
             intros H; try (apply append_inv_head in H; discriminate H).
           exists (String a c). repeat split. discriminate.
      * intros H. apply append_inv_head in H. discriminate H.
    + intros (c & -> & Hne & ->).
      destruct c; [now elim Hne | reflexivity].
  - intros [-> | ->]; reflexivity.
Qed.

Lemma dashboard_iff_exchanged_witness :
  request_url (returning with_code (inr None)) = inr with_code /\
  nextUrl_origin (returning with_code (inr None)) = origin with_code /\
  (fst (GET (returning with_code (inr None))) = origin with_code ++ "/dashboard" <->
   exists c, code with_code = Some c /\ c <> EmptyString
             /\ exchangeCodeForSession (returning with_code (inr None))
                = inr None) /\
  (code with_code = None \/ code with_code = Some EmptyString ->
   snd (GET (returning with_code (inr None))) = []).
Proof.
  split; [reflexivity|]. split; [reflexivity|].
  apply (dashboard_iff_exchanged (returning with_code (inr None)) with_code);
    reflexivity.
Defined.

(** X26: every redirect of the callback stays on the origin of the
    request.  The redirect URL is that origin followed by one of four
    paths: [/dashboard], [/login?error=NoCode],
    [/login?error=ServerError&message=] with the fixed text encoded, or
    [/login?error=AuthError&message=] with the encoded message of the
    identity provider, and the last only when the exchange reported that
    message.  The provider's text appears nowhere else, and only
    encoded. *)
Theorem redirect_same_origin (e : Env) :
  (forall u, request_url e = inr u -> origin u = nextUrl_origin e) ->
  startsWith (fst (GET e)) (nextUrl_origin e) = true /\
  (fst (GET e) = nextUrl_origin e ++ "/dashboard" \/
   fst (GET e) = nextUrl_origin e ++ "/login?error=NoCode" \/
   fst (GET e)
     = nextUrl_origin e ++ "/login?error=ServerError&message="
       ++ encodeURIComponent e
            "An unexpected error occurred during authentication." \/
   exists msg,
     exchangeCodeForSession e = inr (Some msg) /\
     fst (GET e)
       = nextUrl_origin e ++ "/login?error=AuthError&message="
         ++ encodeURIComponent e msg).
Proof.
  intros Ho.
  assert (Hshape :
    fst (GET e) = nextUrl_origin e ++ "/dashboard" \/
    fst (GET e) = nextUrl_origin e ++ "/login?error=NoCode" \/
    fst (GET e)
      = nextUrl_origin e ++ "/login?error=ServerError&message="
        ++ encodeURIComponent e
             "An unexpected error occurred during authentication." \/
    exists msg,
      exchangeCodeForSession e = inr (Some msg) /\
      fst (GET e)
        = nextUrl_origin e ++ "/login?error=AuthError&message="
          ++ encodeURIComponent e msg).
  { unfold GET, server_error.
    destruct (request_url e) as [err | u] eqn:Hu; simpl; [tauto|].
    rewrite (Ho u eq_refl).
    destruct (code u) as [c|]; [|tauto].
    destruct (string_is_empty c); [tauto|].
    destruct (exchangeCodeForSession e) as [err | [msg|]]; simpl;
      [tauto | | tauto].
    right. right. right. exists msg. split; reflexivity. }
  split; [|exact Hshape].
  destruct Hshape as [-> | [-> | [-> | (msg & _ & ->)]]];
    apply ReplyText.startsWith_append.
Qed.

Lemma redirect_same_origin_witness :
  (forall u, request_url (returning with_code (inr (Some "invalid grant")))
               = inr u ->
             origin u = nextUrl_origin
                          (returning with_code (inr (Some "invalid grant")))) /\
  startsWith (fst (GET (returning with_code (inr (Some "invalid grant")))))
             (nextUrl_origin (returning with_code (inr (Some "invalid grant"))))
    = true /\
  (fst (GET (returning with_code (inr (Some "invalid grant"))))
     = nextUrl_origin (returning with_code (inr (Some "invalid grant")))
       ++ "/dashboard" \/
   fst (GET (returning with_code (inr (Some "invalid grant"))))
     = nextUrl_origin (returning with_code (inr (Some "invalid grant")))
       ++ "/login?error=NoCode" \/
   fst (GET (returning with_code (inr (Some "invalid grant"))))
     = nextUrl_origin (returning with_code (inr (Some "invalid grant")))
       ++ "/login?error=ServerError&message="
       ++ encodeURIComponent (returning with_code (inr (Some "invalid grant")))
            "An unexpected error occurred during authentication." \/
   exists msg,
     exchangeCodeForSession (returning with_code (inr (Some "invalid grant")))
       = inr (Some msg) /\
     fst (GET (returning with_code (inr (Some "invalid grant"))))
       = nextUrl_origin (returning with_code (inr (Some "invalid grant")))
         ++ "/login?error=AuthError&message="
         ++ encodeURIComponent
              (returning with_code (inr (Some "invalid grant"))) msg).
Proof.
  assert (H : forall u,
             request_url (returning with_code (inr (Some "invalid grant")))
               = inr u ->
             origin u = nextUrl_origin
                          (returning with_code (inr (Some "invalid grant")))).
  { intros u [= <-]. reflexivity. }
  split; [exact H|].
  apply (redirect_same_origin (returning with_code (inr (Some "invalid grant")))).
  exact H.
Defined.

(** The example, computed (its encoder leaves the text alone): the
    provider's message follows the fixed prefix. *)
Example invalid_grant_redirect :
  fst (GET (returning with_code (inr (Some "invalid grant"))))
    = "https://dish.example/login?error=AuthError&message=invalid grant".
Proof. reflexivity. Qed.

End CallbackFacts.

(* ================================================================== *)
(** * The browser side *)
(* ================================================================== *)

Module ClientFacts.

Import JS Route ClientExamples.

(** ** The uploader's checks against the upload route's *)

(** X27: the uploader never holds back a file the upload route would
    take: a file of at most 5,242,880 bytes with one of the four allowed
    content types passes both checks of [handleFileChange] and is
    uploaded. *)
Theorem uploader_passes_accepted_files (f : Upload.File)
        (others : list Upload.File) :
  (Upload.file_size f <= 5242880)%N ->
  includes Upload.allowedMimeTypes (Upload.file_type f) = true ->
  Uploader.handleFileChange (Some (f :: others))
    = [Uploader.SetPreview f; Uploader.UploadImage f].
Proof.
  intros Hsize Htype. unfold Uploader.handleFileChange.
  replace (5 * 1024 * 1024 <? Upload.file_size f)%N with false
    by (symmetry; now apply N.ltb_ge).
  apply UploadCases.includes_In in Htype. simpl in Htype.
  destruct Htype as [<- | [<- | [<- | [<- | []]]]]; reflexivity.
Qed.

Lemma uploader_passes_accepted_files_witness :
  (Upload.file_size UploadExamples.dinner <= 5242880)%N /\
  includes Upload.allowedMimeTypes (Upload.file_type UploadExamples.dinner)
    = true /\
  Uploader.handleFileChange (Some [UploadExamples.dinner])
    = [Uploader.SetPreview UploadExamples.dinner;
       Uploader.UploadImage UploadExamples.dinner].
Proof.
  split; [discriminate|]. split; [reflexivity|].
  apply (uploader_passes_accepted_files UploadExamples.dinner []).
  - discriminate.
  - reflexivity.
Defined.

(** X28: the two checks differ on the content type.  A file within the
    size limit whose type starts with "image/" but is not one of the four
    allowed ones passes the uploader, is sent, and is answered 415 by the
    upload route. *)
Theorem uploader_sends_what_route_rejects (e : Upload.Env) (s : Session)
        (f : Upload.File) (w : Upload.World) :
  UploadOutcomes.received e s f ->
  (Upload.file_size f <= 5242880)%N ->
  startsWith (Upload.file_type f) "image/" = true ->
  includes Upload.allowedMimeTypes (Upload.file_type f) = false ->
  Uploader.handleFileChange (Some [f])
    = [Uploader.SetPreview f; Uploader.UploadImage f] /\
  status (fst (Upload.POST e w)) = 415 /\
  Upload.objects (snd (Upload.POST e w)) = Upload.objects w.
Proof.
  intros [Hs Hf] Hsize Himg Htype. split.
  - unfold Uploader.handleFileChange.
    replace (5 * 1024 * 1024 <? Upload.file_size f)%N with false
      by (symmetry; now apply N.ltb_ge).
    now rewrite Himg.
  - assert (Hle : (Upload.maxSizeBytes <? Upload.file_size f)%N = false)
      by now apply N.ltb_ge.
    UploadCases.run_upload. rewrite Hs, Hf.
    cbn [sessionError session fst snd Upload.objects Upload.calls].
    rewrite Hle, Htype. simpl. split; reflexivity.
Qed.

Lemma uploader_sends_what_route_rejects_witness :
  UploadOutcomes.received
    (UploadCasesExamples.server UploadCasesExamples.bob_signed_in
       (inr (Some drawing)) (Some "eu-west-1") None
       (inr UploadCasesExamples.presigned))
    UploadExamples.bob drawing /\
  (Upload.file_size drawing <= 5242880)%N /\
  startsWith (Upload.file_type drawing) "image/" = true /\
  includes Upload.allowedMimeTypes (Upload.file_type drawing) = false /\
  Uploader.handleFileChange (Some [drawing])
    = [Uploader.SetPreview drawing; Uploader.UploadImage drawing] /\
  status (fst (Upload.POST
                 (UploadCasesExamples.server UploadCasesExamples.bob_signed_in
                    (inr (Some drawing)) (Some "eu-west-1") None
                    (inr UploadCasesExamples.presigned))
                 UploadExamples.empty_world)) = 415 /\
  Upload.objects (snd (Upload.POST
                         (UploadCasesExamples.server
                            UploadCasesExamples.bob_signed_in
                            (inr (Some drawing)) (Some "eu-west-1") None
                            (inr UploadCasesExamples.presigned))
                         UploadExamples.empty_world))
    = Upload.objects UploadExamples.empty_world.
Proof.
  split; [apply UploadCases.bob_received|]. split; [discriminate|].
  split; [reflexivity|]. split; [reflexivity|].
  apply (uploader_sends_what_route_rejects
           (UploadCasesExamples.server UploadCasesExamples.bob_signed_in
              (inr (Some drawing)) (Some "eu-west-1") None
              (inr UploadCasesExamples.presigned))
           UploadExamples.bob drawing UploadExamples.empty_world).
  - apply UploadCases.bob_received.
  - discriminate.
  - reflexivity.
  - reflexivity.
Defined.

(** ** The dashboard *)

Import Dashboard.

(** X29: [analyzeImage] calls the analyze route only with the stored
    URL, and only when that URL is non-empty, contains both
    "X-Amz-Signature=" and "X-Amz-Expires=", and the browser holds a
    session. *)
Theorem analyze_needs_signed_url (engine : value -> string)
        (imageUrl : option string) (s : option Session)
        (fetched : Error + ClientResponse) (u : string) :
  In (FetchAnalyze u) (analyzeImage engine imageUrl s fetched) ->
  imageUrl = Some u /\
  u <> EmptyString /\
  includes_text u "X-Amz-Signature=" = true /\
  includes_text u "X-Amz-Expires=" = true /\
  s <> None.
Proof.
  unfold analyzeImage.
  destruct imageUrl as [url|]; [|simpl; intros [H | []]; discriminate H].
  destruct (string_is_empty url) eqn:He; [simpl; intros [H | []]; discriminate H|].
  destruct (isPreSigned url) eqn:Hp; [|simpl; intros [H | []]; discriminate H].
  apply andb_true_iff in Hp as [Hp1 Hp2].
  intros H.
  assert (Hu : url = u /\ s <> None).
  { unfold try_analyze in H.
    destruct s as [sess|]; [|simpl in H; intuition discriminate].
    destruct fetched as [err | response];
      [simpl in H; intuition (try discriminate; congruence)|].
    destruct (json response) as [err | result];
      [simpl in H; intuition (try discriminate; congruence)|].
    destruct (negb (client_ok response)), (nullish result); simpl in H;
      intuition (try discriminate; congruence). }
  destruct Hu as [-> Hs]. repeat split; try assumption.
  intros ->. discriminate He.
Qed.

Lemma analyze_needs_signed_url_witness :
  In (FetchAnalyze presigned_url)
     (analyzeImage no_ToString (Some presigned_url)
        (Some AnalyzeExamples.alice) (inl (new_Error "Failed to fetch"))) /\
  Some presigned_url = Some presigned_url /\
  presigned_url <> EmptyString /\
  includes_text presigned_url "X-Amz-Signature=" = true /\
  includes_text presigned_url "X-Amz-Expires=" = true /\
  Some AnalyzeExamples.alice <> None.
Proof.
  assert (H : In (FetchAnalyze presigned_url)
                 (analyzeImage no_ToString (Some presigned_url)
                    (Some AnalyzeExamples.alice)
                    (inl (new_Error "Failed to fetch")))).
  { simpl. right. right. left. reflexivity. }
  split; [exact H|].
  apply (analyze_needs_signed_url no_ToString (Some presigned_url)
           (Some AnalyzeExamples.alice) (inl (new_Error "Failed to fetch"))
           presigned_url).
  exact H.
Defined.

Lemma wire_obj (ps : list (string * value)) :
  wire (VObj ps) = VObj (wire_props ps).
Proof.
  reflexivity.
Qed.

Lemma lookup_absent (o : obj) (k : string) :
  ~ In k (keys o) -> lookup o k = VUndefined.
Proof.
  induction o as [|[k' x] rest IH]; simpl; intros H; [reflexivity|].
  destruct (String.eqb k k') eqn:E.
  - apply String.eqb_eq in E. subst. elim H. now left.
  - apply IH. intros Hin. apply H. now right.
Qed.

(** A property read after the round trip. *)
Lemma lookup_wire_props (o : obj) (k : string) :
  NoDup (keys o) ->
  lookup (wire_props o) k
    = match lookup o k with
      | VUndefined => VUndefined
      | x => wire x
      end.
Proof.
  induction o as [|[k' x] rest IH]; simpl; intros Hn; [reflexivity|].
  inversion Hn as [|? ? Hnotin Hrest]; subst.
  destruct (String.eqb k k') eqn:E.
  - apply String.eqb_eq in E. subst k'.
    destruct x; simpl; rewrite ?String.eqb_refl; try reflexivity.
    rewrite (IH Hrest), (lookup_absent rest k Hnotin). reflexivity.
  - destruct x; simpl; rewrite ?E; now apply IH.
Qed.

Ltac distinct_keys :=
  repeat (constructor; [simpl; intuition discriminate|]); constructor.

(** What the dashboard can rely on in a response of the analyze route. *)
Lemma analyze_response_shape (e : Analyze.Env) (w : Analyze.World) :
  NoDup (keys (body (fst (Analyze.POST e w)))) /\
  ((In (status (fst (Analyze.POST e w))) [400; 401; 500; 503] /\
    exists msg, msg <> EmptyString /\
                lookup (body (fst (Analyze.POST e w))) "error" = VStr msg) \/
   (status (fst (Analyze.POST e w)) = 200 /\
    lookup (body (fst (Analyze.POST e w))) "error" = VUndefined /\
    exists b, lookup (body (fst (Analyze.POST e w))) "contains_food" = VBool b)).
Proof.
  generalize (AnalyzeCases.POST_outcome e w).
  generalize (fst (Analyze.POST e w)) (snd (Analyze.POST e w)).
  intros r w' H.
  destruct H as [H0 | err H0 H1 | d details H0 H1 H2 | d H0 H1 H2 H3
                 | s' err H0 H1 | s' url err H0 H1 H2
                 | s' url err H0 H1 | s' url v H0 H1 H2 | s' url v H0 H1 H2];
    simpl; (split; [distinct_keys|]).
  1-7: left; split; [tauto|]; eexists; split; [|reflexivity]; try discriminate.
  - now apply AnalyzeCases.message_or_not_empty.
  - apply AnalyzeCases.fetch_errorMessage_not_empty.
  - right. repeat split.
    destruct (Pipeline.validated_boolean v (Pipeline.analyse_validated e v H1))
      as [b Hb]. eauto.
  - right. repeat split.
    destruct (Pipeline.validated_boolean v (Pipeline.analyse_validated e v H1))
      as [b Hb]. eauto.
Qed.

Lemma get_delivered (r : Response) (k : string) :
  NoDup (keys (body r)) ->
  get (wire (VObj (body r))) k
    = match lookup (body r) k with
      | VUndefined => VUndefined
      | x => wire x
      end.
Proof. intros Hn. rewrite wire_obj. simpl. now apply lookup_wire_props. Qed.

(** X30: the dashboard on top of the analyze route.  For a signed-looking
    URL and a browser session, whatever the route answers:
    with a status other than 200 the dashboard shows the destructive toast
    "Error During Analysis" with the route's own error text and ends
    without a result; with status 200 it keeps the body as the result and
    shows "Analysis Complete" when the body says [contains_food] and
    "No Food Detected" otherwise; the "Analysis Issue" toast is never
    shown.  In both cases the analyzing flag is set first and cleared
    last. *)
Theorem dashboard_after_analyze (engine : value -> string) (e : Analyze.Env)
        (w : Analyze.World) (u : string) (s : Session) :
  u <> EmptyString ->
  isPreSigned u = true ->
  (status (fst (Analyze.POST e w)) <> 200 ->
   exists msg,
     lookup (body (fst (Analyze.POST e w))) "error" = VStr msg /\
     analyzeImage engine (Some u) (Some s)
                  (inr (delivered (fst (Analyze.POST e w))))
       = [SetIsAnalyzing true; SetAnalysisResult None; FetchAnalyze u;
          ShowToast (mkToast "Error During Analysis" (VStr msg)
                             (Some "destructive"));
          SetAnalysisResult None; SetIsAnalyzing false]) /\
  (status (fst (Analyze.POST e w)) = 200 ->
   exists t,
     analyzeImage engine (Some u) (Some s)
                  (inr (delivered (fst (Analyze.POST e w))))
       = [SetIsAnalyzing true; SetAnalysisResult None; FetchAnalyze u;
          SetAnalysisResult (Some (wire (VObj (body (fst (Analyze.POST e w))))));
          ShowToast t; SetIsAnalyzing false] /\
     (title t = "Analysis Complete" \/ title t = "No Food Detected") /\
     (title t = "Analysis Complete" <->
      lookup (body (fst (Analyze.POST e w))) "contains_food" = VBool true)).
Proof.
  intros Hu Hp.
  destruct (analyze_response_shape e w) as [Hn Hshape].
  pose proof (get_delivered (fst (Analyze.POST e w))) as Hget.
  revert Hn Hshape Hget.
  generalize (fst (Analyze.POST e w)). intros r Hn Hshape Hget.
  assert (He : string_is_empty u = false) by (destruct u; [now elim Hu | reflexivity]).
  unfold analyzeImage. rewrite He, Hp. cbn [negb].
  unfold try_analyze. cbn [delivered json client_status].
  assert (Hnull : nullish (wire (VObj (body r))) = false) by reflexivity.
  rewrite Hnull.
  destruct Hshape as [[Hst (msg & Hne & Herr)] | (Hst & Herr & b & Hb)].
  - assert (Hok : client_ok (delivered r) = false).
    { unfold client_ok, delivered. cbn [client_status].
      destruct Hst as [<- | [<- | [<- | [<- | []]]]]; reflexivity. }
    split.
    + intros _. exists msg. split; [exact Herr|].
      rewrite Hok. cbn [negb].
      rewrite (Hget "error" Hn), Herr. cbn [wire].
      assert (Ht : truthy (VStr msg) = true)
        by (destruct msg; [now elim Hne | reflexivity]).
      rewrite (JSFacts.or_else_keeps _ _ Ht). cbn [ToString].
      unfold error_toast, message_or, new_Error. cbn [message].
      destruct msg; [now elim Hne | reflexivity].
    + intros H200. exfalso.
      destruct Hst as [H | [H | [H | [H | []]]]]; rewrite <- H in H200;
        discriminate H200.
  - assert (Hok : client_ok (delivered r) = true).
    { unfold client_ok, delivered. cbn [client_status]. now rewrite Hst. }
    split; [intros Hn200; now elim Hn200|].
    intros _. rewrite Hok. cbn [negb].
    exists (result_toast engine (wire (VObj (body r)))).
    split; [reflexivity|].
    unfold result_toast.
    rewrite (Hget "contains_food" Hn), (Hget "error" Hn), Herr, Hb.
    cbn [wire truthy]. rewrite andb_false_r.
    destruct b; cbn [title]; split.
    + now left.
    + split; reflexivity.
    + now right.
    + split; intros H; discriminate H.
Qed.

Lemma dashboard_after_analyze_witness :
  presigned_url <> EmptyString /\
  isPreSigned presigned_url = true /\
  (status (fst (Analyze.POST (AnalyzeExamples.food_request Analyze.InsertOk)
                             AnalyzeExamples.empty_world)) <> 200 ->
   exists msg,
     lookup (body (fst (Analyze.POST
                          (AnalyzeExamples.food_request Analyze.InsertOk)
                          AnalyzeExamples.empty_world))) "error" = VStr msg /\
     analyzeImage no_ToString (Some presigned_url) (Some AnalyzeExamples.alice)
                  (inr (delivered
                          (fst (Analyze.POST
                                  (AnalyzeExamples.food_request Analyze.InsertOk)
                                  AnalyzeExamples.empty_world))))
       = [SetIsAnalyzing true; SetAnalysisResult None;
          FetchAnalyze presigned_url;
          ShowToast (mkToast "Error During Analysis" (VStr msg)
                             (Some "destructive"));
          SetAnalysisResult None; SetIsAnalyzing false]) /\
  (status (fst (Analyze.POST (AnalyzeExamples.food_request Analyze.InsertOk)
                             AnalyzeExamples.empty_world)) = 200 ->
   exists t,
     analyzeImage no_ToString (Some presigned_url) (Some AnalyzeExamples.alice)
                  (inr (delivered
                          (fst (Analyze.POST
                                  (AnalyzeExamples.food_request Analyze.InsertOk)
                                  AnalyzeExamples.empty_world))))
       = [SetIsAnalyzing true; SetAnalysisResult None;
          FetchAnalyze presigned_url;
          SetAnalysisResult
            (Some (wire (VObj (body (fst (Analyze.POST
                                            (AnalyzeExamples.food_request
                                               Analyze.InsertOk)
                                            AnalyzeExamples.empty_world))))));
          ShowToast t; SetIsAnalyzing false] /\
     (title t = "Analysis Complete" \/ title t = "No Food Detected") /\
     (title t = "Analysis Complete" <->
      lookup (body (fst (Analyze.POST
                           (AnalyzeExamples.food_request Analyze.InsertOk)
                           AnalyzeExamples.empty_world))) "contains_food"
        = VBool true)).
Proof.
  split; [discriminate|]. split; [reflexivity|].
  apply (dashboard_after_analyze no_ToString
           (AnalyzeExamples.food_request Analyze.InsertOk)
           AnalyzeExamples.empty_world presigned_url AnalyzeExamples.alice).
  - discriminate.
  - reflexivity.
Defined.

(** The example, computed: food was found, the toast names the dish. *)
Example dashboard_names_the_dish :
  analyzeImage no_ToString (Some presigned_url) (Some AnalyzeExamples.alice)
               (inr (delivered
                       (fst (Analyze.POST
                               (AnalyzeExamples.food_request Analyze.InsertOk)
                               AnalyzeExamples.empty_world))))
    = [SetIsAnalyzing true; SetAnalysisResult None; FetchAnalyze presigned_url;
       SetAnalysisResult
         (Some (VObj [ ("contains_food", VBool true);
                       ("dish_name", VStr "Unknown Dish");
                       ("cuisine", VStr "Unknown");
                       ("serving_size", VStr "N/A");
                       ("ingredients", VArr []);
                       ("macros", VObj []);
                       ("allergens", VArr []);
                       ("confidence_score", VNum (Fin (7 # 10))) ]));
       ShowToast (mkToast "Analysis Complete"
                          (VStr "Identified: Unknown Dish") None);
       SetIsAnalyzing false].
Proof. reflexivity. Qed.

End ClientFacts.
